(** * Intake questionnaire step forms: validation, visibility and submission

    A shallow embedding of the five step components (criminal history,
    substance use, children, financial, health).  Every component is a
    react-hook-form form: a record of form values, a validation pass that
    [handleSubmit] runs before the component's [onSubmit], controls that are
    rendered or not depending on watched values, and for three of them a
    field array with [append]/[remove].

    Strings typed by the user are JavaScript strings, modelled as lists of
    UTF-16 code units; messages, labels and field names are constants of the
    source and are ordinary strings. *)

From Stdlib Require Import NArith ZArith Ascii String Lia.
From stdpp Require Import base list strings.

Set Default Proof Using "Type".

(** The two-valued radio groups of the forms. *)
Inductive YesNo : Type := Yes | No.

#[global] Instance YesNo_eq_dec : EqDecision YesNo.
Proof. solve_decision. Defined.

(** ** JavaScript strings, [trim] and anchored regular expressions *)
Module Js.

Abbreviation js_string := (list N).

(** A string literal of the source. *)
Definition lit (s : string) : js_string :=
  map N_of_ascii (list_ascii_of_string s).

(** WhiteSpace and LineTerminator code points of ECMAScript: what
    [String.prototype.trim] strips and what [\s] matches. *)
Definition is_white_space (c : N) : bool :=
  ((9 <=? c) && (c <=? 13) || (c =? 32) || (c =? 160) || (c =? 5760)
   || (8192 <=? c) && (c <=? 8202) || (c =? 8232) || (c =? 8233)
   || (c =? 8239) || (c =? 8287) || (c =? 12288) || (c =? 65279))%N.

(** [\d] without the unicode flag: the ten ASCII digits. *)
Definition is_digit (c : N) : bool := ((48 <=? c) && (c <=? 57))%N.

Definition is_char (a : ascii) (c : N) : bool := (c =? N_of_ascii a)%N.

Fixpoint trimStart (s : js_string) : js_string :=
  match s with
  | c :: s' => if is_white_space c then trimStart s' else s
  | [] => []
  end.

Definition trimEnd (s : js_string) : js_string :=
  rev (trimStart (rev s)).

Definition trim (s : js_string) : js_string := trimEnd (trimStart s).

(** [!v || v.trim() === ''] for [v : string | undefined]. *)
Definition is_blank (v : option js_string) : bool :=
  match v with
  | None => true
  | Some s => match s with
              | [] => true
              | _ => match trim s with [] => true | _ => false end
              end
  end.

(** Regular expressions without back-references or look-around, over code
    units.  Both expressions of the source are of the form [/^...$/]
    without flags, so [test] succeeds exactly when the whole string is in
    the language of the body; matching is by derivatives. *)
Inductive regex : Type :=
| Void
| Eps
| Class (p : N -> bool)
| Cat (r1 r2 : regex)
| Alt (r1 r2 : regex)
| Star (r : regex).

Definition Opt (r : regex) : regex := Alt r Eps.

Fixpoint Times (n : nat) (r : regex) : regex :=
  match n with
  | O => Eps
  | S n' => Cat r (Times n' r)
  end.

Fixpoint nullable (r : regex) : bool :=
  match r with
  | Void => false
  | Eps => true
  | Class _ => false
  | Cat r1 r2 => nullable r1 && nullable r2
  | Alt r1 r2 => nullable r1 || nullable r2
  | Star _ => true
  end.

Fixpoint deriv (c : N) (r : regex) : regex :=
  match r with
  | Void => Void
  | Eps => Void
  | Class p => if p c then Eps else Void
  | Cat r1 r2 =>
      if nullable r1
      then Alt (Cat (deriv c r1) r2) (deriv c r2)
      else Cat (deriv c r1) r2
  | Alt r1 r2 => Alt (deriv c r1) (deriv c r2)
  | Star r1 => Cat (deriv c r1) (Star r1)
  end.

Fixpoint test (r : regex) (s : js_string) : bool :=
  match s with
  | [] => nullable r
  | c :: s' => test (deriv c r) s'
  end.

(** The language of an expression: which strings it matches as a whole. *)
Inductive matches : regex -> js_string -> Prop :=
| matches_eps : matches Eps []
| matches_class p c : p c = true -> matches (Class p) [c]
| matches_cat r1 r2 s1 s2 :
    matches r1 s1 -> matches r2 s2 -> matches (Cat r1 r2) (s1 ++ s2)
| matches_alt_l r1 r2 s : matches r1 s -> matches (Alt r1 r2) s
| matches_alt_r r1 r2 s : matches r2 s -> matches (Alt r1 r2) s
| matches_star_nil r : matches (Star r) []
| matches_star_app r s1 s2 :
    matches r s1 -> matches (Star r) s2 -> matches (Star r) (s1 ++ s2).

(** Every character class of the expression lies within [P]. *)
Fixpoint classes_within (P : N -> Prop) (r : regex) : Prop :=
  match r with
  | Void | Eps => True
  | Class p => forall c, p c = true -> P c
  | Cat r1 r2 | Alt r1 r2 => classes_within P r1 /\ classes_within P r2
  | Star r1 => classes_within P r1
  end.

End Js.

(** ** The form library's contract, as far as the components use it *)
Module Rhf.

(** A segment of a field path such as [charges.0.personName]. *)
Inductive seg : Type :=
| Key (k : string)
| Idx (i : nat).

#[global] Instance seg_eq_dec : EqDecision seg.
Proof. solve_decision. Defined.

(** A validation issue: where, which kind, and the message when the source
    supplies one ([None]: the library's default text). *)
Record Issue : Type := mkIssue {
  path : list seg;
  code : string;
  message : option string;
}.

(** What a submit handler does to the outside world, in order. *)
Inductive effect (A : Type) : Type :=
| Alert (msg : string)
| UpdateData (data : A)
| NextStep
| PrevStep
| Toast (title : string) (data : A).
Arguments Alert {A} msg.
Arguments UpdateData {A} data.
Arguments NextStep {A}.
Arguments PrevStep {A}.
Arguments Toast {A} title data.

Definition is_UpdateData {A} (e : effect A) : bool :=
  match e with UpdateData _ => true | _ => false end.
Definition is_NextStep {A} (e : effect A) : bool :=
  match e with NextStep => true | _ => false end.
Definition is_Alert {A} (e : effect A) : bool :=
  match e with Alert _ => true | _ => false end.

Definition count {A} (p : A -> bool) (l : list A) : nat :=
  length (filter (fun x => p x = true) l).

(** The outcome of [handleSubmit(onSubmit)]: the field errors put into
    [formState.errors], and the effects of [onSubmit] when it was called. *)
Record Submitted (V A : Type) : Type := mkSubmitted {
  draft : V;
  errors : list Issue;
  effects : list (effect A);
}.
Arguments mkSubmitted {V A} draft errors effects.
Arguments draft {V A} _.
Arguments errors {V A} _.
Arguments effects {V A} _.

(** [formState.errors] is keyed by field path: of the issues reported on one
    path only the first is kept, the others are dropped. *)
Fixpoint keep_first (seen : list (list seg)) (issues : list Issue) : list Issue :=
  match issues with
  | [] => []
  | i :: rest =>
      if bool_decide (elem_of (path i) seen) then keep_first seen rest
      else i :: keep_first (path i :: seen) rest
  end.

Definition toFieldErrors (issues : list Issue) : list Issue :=
  keep_first [] issues.

(** [handleSubmit]: the handler runs only when validation found nothing;
    otherwise the issues become the form's errors, one per field.  The form
    values are read, never written. *)
Definition handleSubmit {V A} (validate : V -> list Issue)
    (onSubmit : V -> list (effect A)) (values : V) : Submitted V A :=
  match validate values with
  | [] => mkSubmitted values [] (onSubmit values)
  | issues => mkSubmitted values (toFieldErrors issues) []
  end.

(** A block governed by one answer keeps its values when it is hidden:
    writing the governing field decides whether the block is on screen,
    leaves the dependent values as they are, and writing the old answer back
    gives the old form values. *)
Definition hides_without_clearing {D G W} (governing : D -> G)
    (set : G -> D -> D) (triggers : G -> bool) (rendered : D -> bool)
    (dependent : D -> W) : Prop :=
  forall (d : D) (g : G),
    governing (set g d) = g
    /\ rendered (set g d) = triggers g
    /\ dependent (set g d) = dependent d
    /\ set (governing d) (set g d) = d.

Definition nonempty (v : list N) : bool :=
  match v with [] => false | _ => true end.

Definition nonempty_list {E} (l : list E) : bool :=
  match l with [] => false | _ => true end.

(** The issues reported on one field path. *)
Definition issues_at (p : list seg) (issues : list Issue) : list Issue :=
  filter (fun i => path i = p) issues.

(** [useFieldArray]: the entries live in the form values; the hook keeps a
    parallel array of generated keys (the [field.id] used as React key).
    Fresh keys are drawn from a counter. *)
Record Keys : Type := mkKeys {
  ids : list nat;
  next_id : nat;
}.

Definition no_keys : Keys := mkKeys [] 0.

Definition append {E} (e : E) (l : list E) : list E := l ++ [e].
Definition remove {E} (index : nat) (l : list E) : list E := delete index l.

Definition keys_append (k : Keys) : Keys :=
  mkKeys (ids k ++ [next_id k]) (S (next_id k)).
Definition keys_remove (index : nat) (k : Keys) : Keys :=
  mkKeys (delete index (ids k)) (next_id k).

(** [fields]: every entry with its key. *)
Definition fields {E} (k : Keys) (l : list E) : list (nat * E) :=
  zip (ids k) l.

(** The number printed in an entry's heading, [{index + 1}] inside
    [fields.map((field, index) => ...)]. *)
Definition headings {E} (l : list E) : list nat :=
  imap (fun index _ => index + 1) l.

(** A session on a page: the user's actions, one after the other. *)
Definition run_actions {S A} (step : A -> S -> S) (acts : list A) (st : S) : S :=
  foldl (fun s a => step a s) st acts.

(** A [required] rule of [register]: an empty string fails it. *)
Definition required (p : list seg) (msg : string) (v : list N) : list Issue :=
  match v with
  | [] => [mkIssue p "required" (Some msg)]
  | _ => []
  end.

End Rhf.

(** ** Financial information *)
Module Financial.
Import Js Rhf.

(** [incomeSources]: the field-name stem and the label of each source. *)
Inductive source : Type :=
| childSupport | alimony | wages | stipends
| SSI | TCA | helpFromFamilyFriends | Other.

#[global] Instance source_eq_dec : EqDecision source.
Proof. solve_decision. Defined.

Definition incomeSources : list source :=
  [childSupport; alimony; wages; stipends;
   SSI; TCA; helpFromFamilyFriends; Other].

Definition name (s : source) : string :=
  match s with
  | childSupport => "childSupport"
  | alimony => "alimony"
  | wages => "wages"
  | stipends => "stipends"
  | SSI => "SSI"
  | TCA => "TCA"
  | helpFromFamilyFriends => "helpFromFamilyFriends"
  | Other => "Other"
  end.

Definition label (s : source) : string :=
  match s with
  | childSupport => "child support"
  | alimony => "alimony"
  | wages => "wages"
  | stipends => "stipends"
  | SSI => "SSI"
  | TCA => "TCA"
  | helpFromFamilyFriends => "help from family/friends"
  | Other => "Other"
  end.

(** [/^\$?\s*\d{1,3}(?:,?\d{3})*(?:\.\d{2})?$/] *)
Definition currencyRegex : regex :=
  Cat (Opt (Class (is_char "$")))
 (Cat (Star (Class is_white_space))
 (Cat (Cat (Class is_digit) (Cat (Opt (Class is_digit)) (Opt (Class is_digit))))
 (Cat (Star (Cat (Opt (Class (is_char ","))) (Times 3 (Class is_digit))))
      (Opt (Cat (Class (is_char ".")) (Times 2 (Class is_digit))))))).

(** The form values.  Only [totalMonthlyIncome] has a default; a checkbox
    or an amount that was never touched is [undefined] ([None]). *)
Record FormValues : Type := mkFormValues {
  totalMonthlyIncome : js_string;
  childSupport_checked : option bool;
  childSupport_amount : option js_string;
  alimony_checked : option bool;
  alimony_amount : option js_string;
  wages_checked : option bool;
  wages_amount : option js_string;
  stipends_checked : option bool;
  stipends_amount : option js_string;
  SSI_checked : option bool;
  SSI_amount : option js_string;
  TCA_checked : option bool;
  TCA_amount : option js_string;
  helpFromFamilyFriends_checked : option bool;
  helpFromFamilyFriends_amount : option js_string;
  Other_checked : option bool;
  Other_amount : option js_string;
}.

Definition defaultValues : FormValues :=
  mkFormValues [] None None None None None None None None
               None None None None None None None None.

(** [values[`${name}_checked`]] and [values[`${name}_amount`]] *)
Definition checked_of (s : source) (d : FormValues) : option bool :=
  match s with
  | childSupport => childSupport_checked d
  | alimony => alimony_checked d
  | wages => wages_checked d
  | stipends => stipends_checked d
  | SSI => SSI_checked d
  | TCA => TCA_checked d
  | helpFromFamilyFriends => helpFromFamilyFriends_checked d
  | Other => Other_checked d
  end.

Definition amount_of (s : source) (d : FormValues) : option js_string :=
  match s with
  | childSupport => childSupport_amount d
  | alimony => alimony_amount d
  | wages => wages_amount d
  | stipends => stipends_amount d
  | SSI => SSI_amount d
  | TCA => TCA_amount d
  | helpFromFamilyFriends => helpFromFamilyFriends_amount d
  | Other => Other_amount d
  end.

(** The object the schema produces ([z.infer<typeof formSchema>]):
    [z.boolean().default(false)] has replaced a missing checkbox by
    [false]; the optional amounts come out as they went in. *)
Record FinancialFormData : Type := mkData {
  out_totalMonthlyIncome : js_string;
  out_childSupport_checked : bool;
  out_childSupport_amount : option js_string;
  out_alimony_checked : bool;
  out_alimony_amount : option js_string;
  out_wages_checked : bool;
  out_wages_amount : option js_string;
  out_stipends_checked : bool;
  out_stipends_amount : option js_string;
  out_SSI_checked : bool;
  out_SSI_amount : option js_string;
  out_TCA_checked : bool;
  out_TCA_amount : option js_string;
  out_helpFromFamilyFriends_checked : bool;
  out_helpFromFamilyFriends_amount : option js_string;
  out_Other_checked : bool;
  out_Other_amount : option js_string;
}.

Definition isChecked (s : source) (d : FormValues) : bool :=
  default false (checked_of s d).

Definition parsed (d : FormValues) : FinancialFormData :=
  mkData (totalMonthlyIncome d)
    (isChecked childSupport d) (childSupport_amount d)
    (isChecked alimony d) (alimony_amount d)
    (isChecked wages d) (wages_amount d)
    (isChecked stipends d) (stipends_amount d)
    (isChecked SSI d) (SSI_amount d)
    (isChecked TCA d) (TCA_amount d)
    (isChecked helpFromFamilyFriends d) (helpFromFamilyFriends_amount d)
    (isChecked Other d) (Other_amount d).

Definition out_amount_of (s : source) (v : FinancialFormData) : option js_string :=
  match s with
  | childSupport => out_childSupport_amount v
  | alimony => out_alimony_amount v
  | wages => out_wages_amount v
  | stipends => out_stipends_amount v
  | SSI => out_SSI_amount v
  | TCA => out_TCA_amount v
  | helpFromFamilyFriends => out_helpFromFamilyFriends_amount v
  | Other => out_Other_amount v
  end.

Definition amount_path (s : source) : list seg := [Key (name s +:+ "_amount")].

(** [z.string().min(1, ...).regex(currencyRegex, ...)]: both checks run. *)
Definition income_issues (v : js_string) : list Issue :=
  (if bool_decide (1 <= length v) then []
   else [mkIssue [Key "totalMonthlyIncome"] "too_small"
                 (Some "Monthly household income is required.")])
  ++
  (if test currencyRegex v then []
   else [mkIssue [Key "totalMonthlyIncome"] "invalid_format"
                 (Some "Must be a valid currency format (e.g., 1,500.00)")]).

Definition required_issue (s : source) : Issue :=
  mkIssue (amount_path s) "custom"
          (Some ("Amount for " +:+ label s +:+ " is required.")).

Definition format_issue (s : source) : Issue :=
  mkIssue (amount_path s) "custom" (Some "Must be a valid currency amount.").

(** The body of the [forEach] in [superRefine], for one source. *)
Definition source_issues (d : FormValues) (s : source) : list Issue :=
  let amount := amount_of s d in
  if isChecked s d then
    if is_blank amount then [required_issue s]
    else if negb (test currencyRegex (default [] amount)) then [format_issue s]
    else []
  else [].

Definition superRefine (d : FormValues) : list Issue :=
  concat (map (source_issues d) incomeSources).

(** The resolver: the object schema's issues, then the refinement's.  A
    failed string check does not stop the refinement, and no field of a
    well-typed [FormValues] can fail with a type error. *)
Definition validate (d : FormValues) : list Issue :=
  income_issues (totalMonthlyIncome d) ++ superRefine d.

Definition onSubmit (d : FormValues) : list (effect FinancialFormData) :=
  [Toast "You submitted the following values:" (parsed d)].

Definition submit (d : FormValues) : Submitted FormValues FinancialFormData :=
  handleSubmit validate onSubmit d.

(** The amount input of a source is rendered while its box is checked. *)
Definition amount_visible (s : source) (d : FormValues) : bool :=
  isChecked s d.

(** [field.onChange] of a source's checkbox and typing into its amount
    input: each writes its own key and nothing else. *)
Definition set_checked (s : source) (b : bool) (d : FormValues) : FormValues :=
  let 'mkFormValues t c1 a1 c2 a2 c3 a3 c4 a4 c5 a5 c6 a6 c7 a7 c8 a8 := d in
  let v := Some b in
  match s with
  | childSupport => mkFormValues t v a1 c2 a2 c3 a3 c4 a4 c5 a5 c6 a6 c7 a7 c8 a8
  | alimony => mkFormValues t c1 a1 v a2 c3 a3 c4 a4 c5 a5 c6 a6 c7 a7 c8 a8
  | wages => mkFormValues t c1 a1 c2 a2 v a3 c4 a4 c5 a5 c6 a6 c7 a7 c8 a8
  | stipends => mkFormValues t c1 a1 c2 a2 c3 a3 v a4 c5 a5 c6 a6 c7 a7 c8 a8
  | SSI => mkFormValues t c1 a1 c2 a2 c3 a3 c4 a4 v a5 c6 a6 c7 a7 c8 a8
  | TCA => mkFormValues t c1 a1 c2 a2 c3 a3 c4 a4 c5 a5 v a6 c7 a7 c8 a8
  | helpFromFamilyFriends => mkFormValues t c1 a1 c2 a2 c3 a3 c4 a4 c5 a5 c6 a6 v a7 c8 a8
  | Other => mkFormValues t c1 a1 c2 a2 c3 a3 c4 a4 c5 a5 c6 a6 c7 a7 v a8
  end.

Definition set_amount (s : source) (v : option js_string) (d : FormValues) : FormValues :=
  let 'mkFormValues t c1 a1 c2 a2 c3 a3 c4 a4 c5 a5 c6 a6 c7 a7 c8 a8 := d in
  match s with
  | childSupport => mkFormValues t c1 v c2 a2 c3 a3 c4 a4 c5 a5 c6 a6 c7 a7 c8 a8
  | alimony => mkFormValues t c1 a1 c2 v c3 a3 c4 a4 c5 a5 c6 a6 c7 a7 c8 a8
  | wages => mkFormValues t c1 a1 c2 a2 c3 v c4 a4 c5 a5 c6 a6 c7 a7 c8 a8
  | stipends => mkFormValues t c1 a1 c2 a2 c3 a3 c4 v c5 a5 c6 a6 c7 a7 c8 a8
  | SSI => mkFormValues t c1 a1 c2 a2 c3 a3 c4 a4 c5 v c6 a6 c7 a7 c8 a8
  | TCA => mkFormValues t c1 a1 c2 a2 c3 a3 c4 a4 c5 a5 c6 v c7 a7 c8 a8
  | helpFromFamilyFriends => mkFormValues t c1 a1 c2 a2 c3 a3 c4 a4 c5 a5 c6 a6 c7 v c8 a8
  | Other => mkFormValues t c1 a1 c2 a2 c3 a3 c4 a4 c5 a5 c6 a6 c7 a7 c8 v
  end.

(** The component's own [isChecked(name)], which decides whether an amount
    input is rendered: [watchFields] are the checkbox keys in the order of
    [incomeSources], [watchedValues] their current values, and the value of a
    source is looked up at [findIndex] of its name, falling back with [??] to
    [getValues] of its key.  A name that is not in the list has index -1 and
    no key in the form, hence no value. *)
Definition watchFields : list string :=
  map (fun s => name s +:+ "_checked") incomeSources.

Definition watchedValues (d : FormValues) : list (option bool) :=
  map (fun s => checked_of s d) incomeSources.

Definition findIndex (n : string) : option nat :=
  fst <$> list_find (fun s => name s = n) incomeSources.

Definition getValues_checked (n : string) (d : FormValues) : option bool :=
  match list_find (fun s => name s = n) incomeSources with
  | Some (_, s) => checked_of s d
  | None => None
  end.

Definition isSourceChecked (n : string) (d : FormValues) : option bool :=
  match findIndex n with
  | Some index =>
      match watchedValues d !! index with
      | Some (Some b) => Some b
      | _ => getValues_checked n d
      end
  | None => getValues_checked n d
  end.

(** Every required field populated and every conditional rule satisfied:
    the income is a currency string, and each checked source has an amount
    that is not blank and is a currency string. *)
Definition source_complete (d : FormValues) (s : source) : bool :=
  if isChecked s d
  then negb (is_blank (amount_of s d))
       && test currencyRegex (default [] (amount_of s d))
  else true.

Definition complete (d : FormValues) : bool :=
  test currencyRegex (totalMonthlyIncome d)
  && forallb (source_complete d) incomeSources.

End Financial.

(** ** Criminal history *)
Module CriminalHistory.
Import Js Rhf.

Record CriminalCharge : Type := mkCharge {
  personName : js_string;
  charge : js_string;
  dateOfOffense : js_string;
  outcome : js_string;
  areTheyOnProbation : YesNo;
  probationOfficer : js_string;
  lengthOfProbation : js_string;
  startDate : js_string;
  endDate : js_string;
}.

Record CriminalHistoryFormData : Type := mkFormData {
  hasCriminalOffense : YesNo;
  charges : list CriminalCharge;
  isWillingToBackgroundCheck : YesNo;
}.

(** The slice of the host's application object the step reads. *)
Record IntakeApplicationData : Type := mkProps {
  data_hasCriminalOffense : option YesNo;
  data_charges : option (list CriminalCharge);
  data_isWillingToBackgroundCheck : option YesNo;
}.

Definition defaultValues (data : IntakeApplicationData) : CriminalHistoryFormData :=
  mkFormData (default No (data_hasCriminalOffense data))
             (default [] (data_charges data))
             (default No (data_isWillingToBackgroundCheck data)).

Definition initialCharge : CriminalCharge :=
  mkCharge [] [] [] [] No [] [] [] [].

(** The form values together with the field array's keys. *)
Record State : Type := mkState {
  values : CriminalHistoryFormData;
  keys : Keys;
}.

Definition charge_path (index : nat) (field : string) : list seg :=
  [Key "charges"; Idx index; Key field].

(** Which inputs are on screen. *)
Definition offense_details_rendered (d : CriminalHistoryFormData) : bool :=
  bool_decide (hasCriminalOffense d = Yes).

Definition chargeProbation (d : CriminalHistoryFormData) (index : nat) : option YesNo :=
  areTheyOnProbation <$> charges d !! index.

Definition probation_details_rendered (d : CriminalHistoryFormData) (index : nat) : bool :=
  offense_details_rendered d && bool_decide (chargeProbation d index = Some Yes).

(** The rules registered by the inputs of one rendered charge block.  The
    probation officer's input, and with it its rule, exists only while the
    block's own probation answer is Yes. *)
Definition charge_rules (index : nat) (c : CriminalCharge) : list Issue :=
  required (charge_path index "personName") "Person Name is required." (personName c)
  ++ required (charge_path index "charge") "Charge is required." (charge c)
  ++ required (charge_path index "outcome") "Outcome is required." (outcome c)
  ++ (if bool_decide (areTheyOnProbation c = Yes)
      then required (charge_path index "probationOfficer")
                    "Probation Officer is required." (probationOfficer c)
      else []).

(** Built-in validation (no resolver): the rules of the mounted inputs. *)
Definition validate (d : CriminalHistoryFormData) : list Issue :=
  if offense_details_rendered d
  then concat (imap charge_rules (charges d))
  else [].

(** The alert's text; the button's name is quoted in it. *)
Definition alert_message : string :=
  let quote := String (ascii_of_nat 34) EmptyString in
  "Please click " +:+ quote +:+ "+ Add Offense" +:+ quote
  +:+ " to detail the criminal charges.".

Definition onSubmit (currentStepData : CriminalHistoryFormData)
  : list (effect CriminalHistoryFormData) :=
  if bool_decide (hasCriminalOffense currentStepData = Yes)
     && bool_decide (length (charges currentStepData) = 0)
  then [Alert alert_message]
  else [UpdateData currentStepData; NextStep].

Definition submit (d : CriminalHistoryFormData)
  : Submitted CriminalHistoryFormData CriminalHistoryFormData :=
  handleSubmit validate onSubmit d.

(** Writes to one field of one charge. *)
Inductive ChargeField : Type :=
| PersonName (v : js_string)
| Charge (v : js_string)
| DateOfOffense (v : js_string)
| Outcome (v : js_string)
| AreTheyOnProbation (v : YesNo)
| ProbationOfficer (v : js_string)
| LengthOfProbation (v : js_string)
| StartDate (v : js_string)
| EndDate (v : js_string).

Definition write_charge (f : ChargeField) (c : CriminalCharge) : CriminalCharge :=
  let 'mkCharge n ch dt o p po lp sd ed := c in
  match f with
  | PersonName v => mkCharge v ch dt o p po lp sd ed
  | Charge v => mkCharge n v dt o p po lp sd ed
  | DateOfOffense v => mkCharge n ch v o p po lp sd ed
  | Outcome v => mkCharge n ch dt v p po lp sd ed
  | AreTheyOnProbation v => mkCharge n ch dt o v po lp sd ed
  | ProbationOfficer v => mkCharge n ch dt o p v lp sd ed
  | LengthOfProbation v => mkCharge n ch dt o p po v sd ed
  | StartDate v => mkCharge n ch dt o p po lp v ed
  | EndDate v => mkCharge n ch dt o p po lp sd v
  end.

Definition is_probation_detail (f : ChargeField) : bool :=
  match f with
  | ProbationOfficer _ | LengthOfProbation _ | StartDate _ | EndDate _ => true
  | _ => false
  end.

(** What the user can do on the page. *)
Inductive Action : Type :=
| SelectHasCriminalOffense (v : YesNo)
| SelectBackgroundCheck (v : YesNo)
| ClickAddOffense
| ClickRemoveCharge (index : nat)
| EditCharge (index : nat) (f : ChargeField).

(** An action is possible when its control is rendered. *)
Definition available (a : Action) (st : State) : bool :=
  let d := values st in
  match a with
  | SelectHasCriminalOffense _ | SelectBackgroundCheck _ => true
  | ClickAddOffense => offense_details_rendered d
  | ClickRemoveCharge index =>
      offense_details_rendered d && bool_decide (index < length (charges d))
  | EditCharge index f =>
      offense_details_rendered d && bool_decide (index < length (charges d))
      && (if is_probation_detail f then probation_details_rendered d index else true)
  end.

Definition handle (a : Action) (st : State) : State :=
  let d := values st in
  match a with
  | SelectHasCriminalOffense v =>
      mkState (mkFormData v (charges d) (isWillingToBackgroundCheck d)) (keys st)
  | SelectBackgroundCheck v =>
      mkState (mkFormData (hasCriminalOffense d) (charges d) v) (keys st)
  | ClickAddOffense =>
      mkState (mkFormData (hasCriminalOffense d) (append initialCharge (charges d))
                          (isWillingToBackgroundCheck d))
              (keys_append (keys st))
  | ClickRemoveCharge index =>
      mkState (mkFormData (hasCriminalOffense d) (remove index (charges d))
                          (isWillingToBackgroundCheck d))
              (keys_remove index (keys st))
  | EditCharge index f =>
      mkState (mkFormData (hasCriminalOffense d)
                          (alter (write_charge f) index (charges d))
                          (isWillingToBackgroundCheck d))
              (keys st)
  end.

Definition step (a : Action) (st : State) : State :=
  if available a st then handle a st else st.

Definition run (acts : list Action) (st : State) : State :=
  run_actions step acts st.

(** The state at mount: keys for the charges received from the host. *)
Definition mount (data : IntakeApplicationData) : State :=
  let d := defaultValues data in
  mkState d (mkKeys (seq 0 (length (charges d))) (length (charges d))).

(** Every required field populated and every conditional rule satisfied:
    with an affirmative answer there is at least one charge, and each
    charge on screen has a name, a charge and an outcome, and a probation
    officer when it is on probation. *)
Definition charge_complete (c : CriminalCharge) : bool :=
  nonempty (personName c) && nonempty (charge c) && nonempty (outcome c)
  && (if bool_decide (areTheyOnProbation c = Yes)
      then nonempty (probationOfficer c) else true).

Definition complete (d : CriminalHistoryFormData) : bool :=
  match hasCriminalOffense d with
  | Yes => nonempty_list (charges d) && forallb charge_complete (charges d)
  | No => true
  end.

End CriminalHistory.

(** ** Substance use history *)
Module SubstanceUse.
Import Js Rhf.

(** The four radio answers have defaults; the text inputs are [undefined]
    until their input has been on screen. *)
Record SubstanceUseHistoryFormData : Type := mkFormData {
  hasSubstanceHistory : YesNo;
  substances : option js_string;
  lastUseMonth : option js_string;
  lastUseYear : option js_string;
  isCleanAndSober : YesNo;
  sobrietyPlan : option js_string;
  hasInpatientTreatment : YesNo;
  inpatientDetails : option js_string;
  hasSponsor : YesNo;
}.

Definition defaultValues : SubstanceUseHistoryFormData :=
  mkFormData No None None None No None No None No.

Definition custom (field msg : string) : Issue :=
  mkIssue [Key field] "custom" (Some msg).

Definition when_blank (v : option js_string) (i : Issue) : list Issue :=
  if is_blank v then [i] else [].

(** [superRefine].  The enum fields cannot fail in a well-typed record, and
    the [minLength]/[maxLength] given to [register("lastUseYear")] are not
    consulted when a resolver is installed. *)
Definition validate (data : SubstanceUseHistoryFormData) : list Issue :=
  (if bool_decide (hasSubstanceHistory data = Yes) then
     when_blank (substances data) (custom "substances" "Please list the substance(s).")
     ++ when_blank (lastUseMonth data) (custom "lastUseMonth" "Month is required.")
     ++ when_blank (lastUseYear data) (custom "lastUseYear" "Year is required.")
   else [])
  ++ (if bool_decide (hasInpatientTreatment data = Yes) then
        when_blank (inpatientDetails data)
          (custom "inpatientDetails" "Please provide when and where treatment occurred.")
      else [])
  ++ (if bool_decide (isCleanAndSober data = Yes) then
        when_blank (sobrietyPlan data)
          (custom "sobrietyPlan" "Please describe your plan to stay clean and sober.")
      else []).

Definition onSubmit (data : SubstanceUseHistoryFormData)
  : list (effect SubstanceUseHistoryFormData) :=
  [Toast "You submitted the following values:" data].

Definition submit (d : SubstanceUseHistoryFormData)
  : Submitted SubstanceUseHistoryFormData SubstanceUseHistoryFormData :=
  handleSubmit validate onSubmit d.

(** The three conditional blocks. *)
Definition history_fields_rendered (d : SubstanceUseHistoryFormData) : bool :=
  bool_decide (hasSubstanceHistory d = Yes).
Definition sobriety_plan_rendered (d : SubstanceUseHistoryFormData) : bool :=
  bool_decide (isCleanAndSober d = Yes).
Definition inpatient_details_rendered (d : SubstanceUseHistoryFormData) : bool :=
  bool_decide (hasInpatientTreatment d = Yes).

(** [form.setValue(name, value, { shouldValidate: true })] of the radio
    groups: the named answer changes, the text values stay. *)
Definition set_hasSubstanceHistory (v : YesNo) (d : SubstanceUseHistoryFormData) :=
  mkFormData v (substances d) (lastUseMonth d) (lastUseYear d) (isCleanAndSober d)
             (sobrietyPlan d) (hasInpatientTreatment d) (inpatientDetails d) (hasSponsor d).
Definition set_isCleanAndSober (v : YesNo) (d : SubstanceUseHistoryFormData) :=
  mkFormData (hasSubstanceHistory d) (substances d) (lastUseMonth d) (lastUseYear d) v
             (sobrietyPlan d) (hasInpatientTreatment d) (inpatientDetails d) (hasSponsor d).
Definition set_hasInpatientTreatment (v : YesNo) (d : SubstanceUseHistoryFormData) :=
  mkFormData (hasSubstanceHistory d) (substances d) (lastUseMonth d) (lastUseYear d)
             (isCleanAndSober d) (sobrietyPlan d) v (inpatientDetails d) (hasSponsor d).

(** Typing into the year input, and the sponsor radio group. *)
Definition set_lastUseYear (v : js_string) (d : SubstanceUseHistoryFormData) :=
  mkFormData (hasSubstanceHistory d) (substances d) (lastUseMonth d) (Some v)
             (isCleanAndSober d) (sobrietyPlan d) (hasInpatientTreatment d)
             (inpatientDetails d) (hasSponsor d).
Definition set_hasSponsor (v : YesNo) (d : SubstanceUseHistoryFormData) :=
  mkFormData (hasSubstanceHistory d) (substances d) (lastUseMonth d) (lastUseYear d)
             (isCleanAndSober d) (sobrietyPlan d) (hasInpatientTreatment d)
             (inpatientDetails d) v.

(** Every required field populated and every conditional rule satisfied:
    the details of each affirmative answer are not blank. *)
Definition complete (d : SubstanceUseHistoryFormData) : bool :=
  (if bool_decide (hasSubstanceHistory d = Yes)
   then negb (is_blank (substances d)) && negb (is_blank (lastUseMonth d))
        && negb (is_blank (lastUseYear d))
   else true)
  && (if bool_decide (hasInpatientTreatment d = Yes)
      then negb (is_blank (inpatientDetails d)) else true)
  && (if bool_decide (isCleanAndSober d = Yes)
      then negb (is_blank (sobrietyPlan d)) else true).

End SubstanceUse.

(** ** Children *)
Module Children.
Import Js Rhf.

(** The value of the birthday controller: nothing chosen, or the [Date]
    built from the date input (milliseconds since the epoch), which may be
    an invalid date. *)
Inductive DateValue : Type :=
| Undefined
| InvalidDate
| ValidDate (time : Z).

Record Child : Type := mkChild {
  name : js_string;
  birthday : DateValue;
  ssn : js_string;
  gender : js_string;
  race : js_string;
  living : bool;
}.

Record FormValues : Type := mkFormValues {
  children : list Child;
}.

Definition defaultValues : FormValues := mkFormValues [].

(** The entry the Add Child button appends. *)
Definition newChild : Child := mkChild [] Undefined [] [] [] false.

(** [/^\d{3}-\d{2}-\d{4}$/] *)
Definition ssnRegex : regex :=
  Cat (Times 3 (Class is_digit))
 (Cat (Class (is_char "-"))
 (Cat (Times 2 (Class is_digit))
 (Cat (Class (is_char "-")) (Times 4 (Class is_digit))))).

Definition child_path (index : nat) (field : string) : list seg :=
  [Key "children"; Idx index; Key field].

(** The object schema of one entry, key by key: [name] and [race] accept
    every string, [living] every boolean; [z.coerce.date()] rejects what
    [new Date(v)] turns into an invalid date, as a value that is not of the
    date type. *)
Definition child_issues (index : nat) (c : Child) : list Issue :=
  (match birthday c with
   | ValidDate _ => []
   | _ => [mkIssue (child_path index "birthday") "invalid_type" None]
   end)
  ++ (if test ssnRegex (ssn c) then []
      else [mkIssue (child_path index "ssn") "invalid_format" None])
  ++ (if bool_decide (1 <= length (gender c)) then []
      else [mkIssue (child_path index "gender") "too_small" None]).

Definition validate (d : FormValues) : list Issue :=
  concat (imap child_issues (children d)).

Definition onSubmit (data : FormValues) : list (effect FormValues) :=
  [Toast "You submitted the following values:" data].

Definition submit (d : FormValues) : Submitted FormValues FormValues :=
  handleSubmit validate onSubmit d.

Record State : Type := mkState {
  values : FormValues;
  keys : Keys;
}.

Definition mount : State := mkState defaultValues no_keys.

(** [disabled={fields.length >= 5}] on the Add Child button. *)
Definition add_disabled (st : State) : bool :=
  bool_decide (5 <= length (children (values st))).

Inductive ChildField : Type :=
| Name (v : js_string)
| Birthday (v : DateValue)
| Ssn (v : js_string)
| Gender (v : js_string)
| Race (v : js_string).

Definition write_child (f : ChildField) (c : Child) : Child :=
  let 'mkChild n b s g r l := c in
  match f with
  | Name v => mkChild v b s g r l
  | Birthday v => mkChild n v s g r l
  | Ssn v => mkChild n b v g r l
  | Gender v => mkChild n b s v r l
  | Race v => mkChild n b s g v l
  end.

(** The page has no remove control; the radio group about living with the
    applicant is not bound to the form. *)
Inductive Action : Type :=
| ClickAddChild
| EditChild (index : nat) (f : ChildField)
| ClickReset.

Definition available (a : Action) (st : State) : bool :=
  match a with
  | ClickAddChild => negb (add_disabled st)
  | EditChild index _ => bool_decide (index < length (children (values st)))
  | ClickReset => true
  end.

Definition handle (a : Action) (st : State) : State :=
  match a with
  | ClickAddChild =>
      mkState (mkFormValues (append newChild (children (values st))))
              (keys_append (keys st))
  | EditChild index f =>
      mkState (mkFormValues (alter (write_child f) index (children (values st))))
              (keys st)
  | ClickReset => mkState defaultValues (mkKeys [] (next_id (keys st)))
  end.

(** A click on a disabled button is not delivered. *)
Definition step (a : Action) (st : State) : State :=
  if available a st then handle a st else st.

Definition run (acts : list Action) (st : State) : State :=
  run_actions step acts st.

(** Every required field populated: each child has a valid birthday, a
    social security number in the format and a gender. *)
Definition child_complete (c : Child) : bool :=
  (match birthday c with ValidDate _ => true | _ => false end)
  && test ssnRegex (ssn c) && nonempty (gender c).

Definition complete (d : FormValues) : bool :=
  forallb child_complete (children d).

End Children.

(** ** Physical and mental health *)
Module Health.
Import Js Rhf.

Record ChronicIllness : Type := mkIllness {
  type : js_string;
  symptoms : js_string;
  doctor : js_string;
  medication : js_string;
  takingMedsAsPrescribed : bool;
  isManageable : bool;
}.

Record Coverage : Type := mkCoverage {
  spouse : bool;
  children : bool;
}.

Record MonthYear : Type := mkMonthYear {
  month : js_string;
  year : js_string;
}.

Inductive Mammogram : Type := yes | no | not_applicable.

#[global] Instance Mammogram_eq_dec : EqDecision Mammogram.
Proof. solve_decision. Defined.

(** The form values.  The schema marks most keys optional, but the
    defaults define every one of them and each control writes a value of
    the key's type. *)
Record FormValues : Type := mkFormValues {
  hasChronicIllness : bool;
  chronicIllnesses : list ChronicIllness;
  hasPhysicalDisabilities : bool;
  physicalDisabilitiesExplanation : js_string;
  hasHealthInsurance : bool;
  healthInsuranceType : js_string;
  healthInsuranceCoverage : Coverage;
  hasDentalInsurance : bool;
  dentalExamLastYear : bool;
  dentalInsuranceCoverage : Coverage;
  hasRegularFamilyDoctor : bool;
  lastDoctorAppointment : MonthYear;
  lastObGynExam : MonthYear;
  mammogramStatus : Mammogram;
  lastMammogram : MonthYear;
  hasMentalIllness : bool;
  receivingMentalHealthTreatment : bool;
  mentalHealthTreatmentExplanation : js_string;
}.

Definition defaultValues : FormValues :=
  mkFormValues false [] false [] false [] (mkCoverage false false)
               false false (mkCoverage false false) false
               (mkMonthYear [] []) (mkMonthYear [] []) not_applicable
               (mkMonthYear [] []) false false [].

(** The entry appended by the effect and by the add button. *)
Definition newIllness : ChronicIllness := mkIllness [] [] [] [] false false.

Definition illness_path (index : nat) (field : string) : list seg :=
  [Key "chronicIllnesses"; Idx index; Key field].

Definition min1 (p : list seg) (msg : string) (v : js_string) : list Issue :=
  if bool_decide (1 <= length v) then [] else [mkIssue p "too_small" (Some msg)].

Definition illness_issues (index : nat) (e : ChronicIllness) : list Issue :=
  min1 (illness_path index "type") "Type of illness is required" (type e)
  ++ min1 (illness_path index "symptoms") "Symptoms are required" (symptoms e)
  ++ min1 (illness_path index "doctor") "Doctor name is required" (doctor e)
  ++ min1 (illness_path index "medication") "Medication details are required"
          (medication e).

(** The schema has no refinement: the entries of the list are checked
    whatever the answer to the chronic-illness question is, and nothing
    else can fail in a well-typed record. *)
Definition validate (d : FormValues) : list Issue :=
  concat (imap illness_issues (chronicIllnesses d)).

Definition onSubmit (data : FormValues) : list (effect FormValues) :=
  [Toast "You submitted the following values:" data].

Definition submit (d : FormValues) : Submitted FormValues FormValues :=
  handleSubmit validate onSubmit d.

Record State : Type := mkState {
  values : FormValues;
  keys : Keys;
}.

(** The controls bound to a key outside the list, with the value written. *)
Inductive Write : Type :=
| Set_hasChronicIllness (v : bool)
| Set_hasPhysicalDisabilities (v : bool)
| Set_physicalDisabilitiesExplanation (v : js_string)
| Set_hasHealthInsurance (v : bool)
| Set_healthInsuranceType (v : js_string)
| Set_healthInsuranceCoverage_spouse (v : bool)
| Set_healthInsuranceCoverage_children (v : bool)
| Set_hasDentalInsurance (v : bool)
| Set_dentalInsuranceCoverage_spouse (v : bool)
| Set_dentalInsuranceCoverage_children (v : bool)
| Set_dentalExamLastYear (v : bool)
| Set_hasRegularFamilyDoctor (v : bool)
| Set_lastDoctorAppointment_month (v : js_string)
| Set_lastDoctorAppointment_year (v : js_string)
| Set_lastObGynExam_month (v : js_string)
| Set_lastObGynExam_year (v : js_string)
| Set_mammogramStatus (v : Mammogram)
| Set_lastMammogram_month (v : js_string)
| Set_lastMammogram_year (v : js_string)
| Set_hasMentalIllness (v : bool)
| Set_receivingMentalHealthTreatment (v : bool)
| Set_mentalHealthTreatmentExplanation (v : js_string).

Definition write (w : Write) (d : FormValues) : FormValues :=
  let 'mkFormValues f1 f2 f3 f4 f5 f6 f7 f8 f9 f10 f11 f12 f13 f14 f15 f16 f17 f18 := d in
  match w with
  | Set_hasChronicIllness v =>
      mkFormValues v f2 f3 f4 f5 f6 f7 f8 f9 f10 f11 f12 f13 f14 f15 f16 f17 f18
  | Set_hasPhysicalDisabilities v =>
      mkFormValues f1 f2 v f4 f5 f6 f7 f8 f9 f10 f11 f12 f13 f14 f15 f16 f17 f18
  | Set_physicalDisabilitiesExplanation v =>
      mkFormValues f1 f2 f3 v f5 f6 f7 f8 f9 f10 f11 f12 f13 f14 f15 f16 f17 f18
  | Set_hasHealthInsurance v =>
      mkFormValues f1 f2 f3 f4 v f6 f7 f8 f9 f10 f11 f12 f13 f14 f15 f16 f17 f18
  | Set_healthInsuranceType v =>
      mkFormValues f1 f2 f3 f4 f5 v f7 f8 f9 f10 f11 f12 f13 f14 f15 f16 f17 f18
  | Set_healthInsuranceCoverage_spouse v =>
      mkFormValues f1 f2 f3 f4 f5 f6 (mkCoverage v (children f7)) f8 f9 f10 f11 f12 f13 f14 f15 f16 f17 f18
  | Set_healthInsuranceCoverage_children v =>
      mkFormValues f1 f2 f3 f4 f5 f6 (mkCoverage (spouse f7) v) f8 f9 f10 f11 f12 f13 f14 f15 f16 f17 f18
  | Set_hasDentalInsurance v =>
      mkFormValues f1 f2 f3 f4 f5 f6 f7 v f9 f10 f11 f12 f13 f14 f15 f16 f17 f18
  | Set_dentalInsuranceCoverage_spouse v =>
      mkFormValues f1 f2 f3 f4 f5 f6 f7 f8 f9 (mkCoverage v (children f10)) f11 f12 f13 f14 f15 f16 f17 f18
  | Set_dentalInsuranceCoverage_children v =>
      mkFormValues f1 f2 f3 f4 f5 f6 f7 f8 f9 (mkCoverage (spouse f10) v) f11 f12 f13 f14 f15 f16 f17 f18
  | Set_dentalExamLastYear v =>
      mkFormValues f1 f2 f3 f4 f5 f6 f7 f8 v f10 f11 f12 f13 f14 f15 f16 f17 f18
  | Set_hasRegularFamilyDoctor v =>
      mkFormValues f1 f2 f3 f4 f5 f6 f7 f8 f9 f10 v f12 f13 f14 f15 f16 f17 f18
  | Set_lastDoctorAppointment_month v =>
      mkFormValues f1 f2 f3 f4 f5 f6 f7 f8 f9 f10 f11 (mkMonthYear v (year f12)) f13 f14 f15 f16 f17 f18
  | Set_lastDoctorAppointment_year v =>
      mkFormValues f1 f2 f3 f4 f5 f6 f7 f8 f9 f10 f11 (mkMonthYear (month f12) v) f13 f14 f15 f16 f17 f18
  | Set_lastObGynExam_month v =>
      mkFormValues f1 f2 f3 f4 f5 f6 f7 f8 f9 f10 f11 f12 (mkMonthYear v (year f13)) f14 f15 f16 f17 f18
  | Set_lastObGynExam_year v =>
      mkFormValues f1 f2 f3 f4 f5 f6 f7 f8 f9 f10 f11 f12 (mkMonthYear (month f13) v) f14 f15 f16 f17 f18
  | Set_mammogramStatus v =>
      mkFormValues f1 f2 f3 f4 f5 f6 f7 f8 f9 f10 f11 f12 f13 v f15 f16 f17 f18
  | Set_lastMammogram_month v =>
      mkFormValues f1 f2 f3 f4 f5 f6 f7 f8 f9 f10 f11 f12 f13 f14 (mkMonthYear v (year f15)) f16 f17 f18
  | Set_lastMammogram_year v =>
      mkFormValues f1 f2 f3 f4 f5 f6 f7 f8 f9 f10 f11 f12 f13 f14 (mkMonthYear (month f15) v) f16 f17 f18
  | Set_hasMentalIllness v =>
      mkFormValues f1 f2 f3 f4 f5 f6 f7 f8 f9 f10 f11 f12 f13 f14 f15 v f17 f18
  | Set_receivingMentalHealthTreatment v =>
      mkFormValues f1 f2 f3 f4 f5 f6 f7 f8 f9 f10 f11 f12 f13 f14 f15 f16 v f18
  | Set_mentalHealthTreatmentExplanation v =>
      mkFormValues f1 f2 f3 f4 f5 f6 f7 f8 f9 f10 f11 f12 f13 f14 f15 f16 f17 v
  end.

(** Whether the control of a write is on screen. *)
Definition rendered (w : Write) (d : FormValues) : bool :=
  match w with
  | Set_physicalDisabilitiesExplanation _ => hasPhysicalDisabilities d
  | Set_healthInsuranceType _
  | Set_healthInsuranceCoverage_spouse _
  | Set_healthInsuranceCoverage_children _ => hasHealthInsurance d
  | Set_dentalInsuranceCoverage_spouse _
  | Set_dentalInsuranceCoverage_children _ => hasDentalInsurance d
  | Set_lastMammogram_month _
  | Set_lastMammogram_year _ => bool_decide (mammogramStatus d = yes)
  | Set_receivingMentalHealthTreatment _
  | Set_mentalHealthTreatmentExplanation _ => hasMentalIllness d
  | _ => true
  end.

Inductive IllnessField : Type :=
| Type_ (v : js_string)
| Symptoms (v : js_string)
| Doctor (v : js_string)
| Medication (v : js_string)
| TakingMedsAsPrescribed (v : bool)
| IsManageable (v : bool).

Definition write_illness (f : IllnessField) (e : ChronicIllness) : ChronicIllness :=
  let 'mkIllness t s d m k g := e in
  match f with
  | Type_ v => mkIllness v s d m k g
  | Symptoms v => mkIllness t v d m k g
  | Doctor v => mkIllness t s v m k g
  | Medication v => mkIllness t s d v k g
  | TakingMedsAsPrescribed v => mkIllness t s d m v g
  | IsManageable v => mkIllness t s d m k v
  end.

Definition set_chronicIllnesses (l : list ChronicIllness) (d : FormValues) : FormValues :=
  let 'mkFormValues f1 f2 f3 f4 f5 f6 f7 f8 f9 f10 f11 f12 f13 f14 f15 f16 f17 f18 := d in
  mkFormValues f1 l f3 f4 f5 f6 f7 f8 f9 f10 f11 f12 f13 f14 f15 f16 f17 f18.

Inductive Action : Type :=
| Change (w : Write)
| ClickAddIllness
| ClickRemoveIllness (index : nat)
| EditIllness (index : nat) (f : IllnessField)
| ClickReset.

(** The list block is rendered while [hasChronicIllness] holds; inside it
    the Remove button of an entry only while [fields.length > 1]. *)
Definition illnesses_rendered (d : FormValues) : bool := hasChronicIllness d.

Definition remove_rendered (d : FormValues) (index : nat) : bool :=
  illnesses_rendered d
  && bool_decide (index < length (chronicIllnesses d))
  && bool_decide (1 < length (chronicIllnesses d)).

Definition available (a : Action) (st : State) : bool :=
  let d := values st in
  match a with
  | Change w => rendered w d
  | ClickAddIllness => illnesses_rendered d
  | ClickRemoveIllness index => remove_rendered d index
  | EditIllness index _ =>
      illnesses_rendered d && bool_decide (index < length (chronicIllnesses d))
  | ClickReset => true
  end.

Definition handle (a : Action) (st : State) : State :=
  let d := values st in
  match a with
  | Change w => mkState (write w d) (keys st)
  | ClickAddIllness =>
      mkState (set_chronicIllnesses (append newIllness (chronicIllnesses d)) d)
              (keys_append (keys st))
  | ClickRemoveIllness index =>
      mkState (set_chronicIllnesses (remove index (chronicIllnesses d)) d)
              (keys_remove index (keys st))
  | EditIllness index f =>
      mkState (set_chronicIllnesses
                 (alter (write_illness f) index (chronicIllnesses d)) d)
              (keys st)
  | ClickReset => mkState defaultValues (mkKeys [] (next_id (keys st)))
  end.

(** The effect that runs after a render: an affirmative answer with an
    empty list gets its first entry. *)
Definition useEffect (st : State) : State :=
  let d := values st in
  if hasChronicIllness d && bool_decide (length (chronicIllnesses d) = 0)
  then mkState (set_chronicIllnesses (append newIllness (chronicIllnesses d)) d)
               (keys_append (keys st))
  else st.

Definition mount : State := useEffect (mkState defaultValues no_keys).

Definition step (a : Action) (st : State) : State :=
  if available a st then useEffect (handle a st) else st.

Definition run (acts : list Action) (st : State) : State :=
  run_actions step acts st.

(** Every required field populated: the four texts of each illness. *)
Definition illness_complete (e : ChronicIllness) : bool :=
  nonempty (type e) && nonempty (symptoms e) && nonempty (doctor e)
  && nonempty (medication e).

Definition complete (d : FormValues) : bool :=
  forallb illness_complete (chronicIllnesses d).

End Health.

Import Js Rhf.

(** ** Sample form values *)

Definition sample_charge : CriminalHistory.CriminalCharge :=
  CriminalHistory.mkCharge (lit "Jane Doe") (lit "Misdemeanor Theft") []
    (lit "Dismissed") No [] [] [] [].

Definition sample_criminal : CriminalHistory.CriminalHistoryFormData :=
  CriminalHistory.mkFormData Yes [sample_charge] Yes.

Definition sample_child : Children.Child :=
  Children.mkChild (lit "Sam") (Children.ValidDate 1577836800000)
    (lit "123-45-6789") (lit "male") [] false.

Definition sample_wages (amount : option js_string) : Financial.FormValues :=
  Financial.set_amount Financial.wages amount
    (Financial.set_checked Financial.wages true
       (Financial.mkFormValues (lit "2,000.00") None None None None None None
          None None None None None None None None None None)).

Definition sample_financial : Financial.FormValues :=
  sample_wages (Some (lit "1,500.00")).

Definition sample_criminal_state : CriminalHistory.State :=
  CriminalHistory.mkState sample_criminal (mkKeys [0] 1).



Definition sample_health_state : Health.State :=
  Health.step (Health.Change (Health.Set_hasChronicIllness true)) Health.mount.

Definition sample_illness : Health.ChronicIllness :=
  Health.mkIllness (lit "Diabetes") (lit "Fatigue") (lit "Dr. Who")
    (lit "Metformin 500mg") true true.

Definition sample_children : Children.FormValues :=
  Children.mkFormValues [sample_child].

Definition sample_health : Health.FormValues :=
  Health.set_chronicIllnesses [sample_illness]
    (Health.write (Health.Set_hasChronicIllness true) Health.defaultValues).

Definition sample_family_help (amount : option js_string) : Financial.FormValues :=
  Financial.set_amount Financial.helpFromFamilyFriends amount
    (Financial.set_checked Financial.helpFromFamilyFriends true
       (Financial.mkFormValues (lit "900") None None None None None None
          None None None None None None None None None None)).

Definition sample_blank_charge_form : CriminalHistory.CriminalHistoryFormData :=
  CriminalHistory.mkFormData Yes
    [sample_charge;
     CriminalHistory.mkCharge [] [] [] [] Yes [] [] [] []] No.

(** * Properties *)

(** ** Strings *)

Lemma trimStart_nil_iff (s : js_string) :
  trimStart s = [] <-> forallb is_white_space s = true.
Proof.
  induction s as [|c s IH]; simpl; [tauto|].
  destruct (is_white_space c); simpl; [exact IH|].
  split; discriminate.
Qed.

Lemma trimStart_all_white (s : js_string) :
  forallb is_white_space s = true -> trimStart s = [].
Proof. apply trimStart_nil_iff. Qed.

Lemma trimStart_keeps_nonwhite (s : js_string) :
  forallb is_white_space s = false ->
  forallb is_white_space (trimStart s) = false.
Proof.
  induction s as [|c s IH]; simpl; [discriminate|].
  destruct (is_white_space c) eqn:Hc; simpl; [exact IH|].
  now rewrite Hc.
Qed.

Lemma forallb_rev {A} (p : A -> bool) (l : list A) :
  forallb p (rev l) = forallb p l.
Proof.
  induction l as [|x l IH]; simpl; [reflexivity|].
  rewrite forallb_app, IH. simpl. rewrite andb_true_r. apply andb_comm.
Qed.

(** [s.trim() === ''] exactly when every code unit of [s] is white space. *)
Lemma trim_nil_iff (s : js_string) :
  trim s = [] <-> forallb is_white_space s = true.
Proof.
  unfold trim, trimEnd. split.
  - intros H. destruct (forallb is_white_space s) eqn:Hs; [reflexivity|].
    apply trimStart_keeps_nonwhite in Hs.
    rewrite <- forallb_rev in Hs.
    apply (f_equal (@rev N)) in H. rewrite rev_involutive in H. simpl in H.
    apply trimStart_nil_iff in H. congruence.
  - intros H. rewrite (trimStart_all_white _ H). reflexivity.
Qed.

Lemma is_blank_Some (s : js_string) :
  is_blank (Some s) = forallb is_white_space s.
Proof.
  unfold is_blank. destruct s as [|c s]; [reflexivity|].
  destruct (forallb is_white_space (c :: s)) eqn:H.
  - apply trim_nil_iff in H. now rewrite H.
  - destruct (trim (c :: s)) eqn:Ht; [|reflexivity].
    apply trim_nil_iff in Ht. congruence.
Qed.

Lemma nonempty_true (v : js_string) : nonempty v = true <-> v <> [].
Proof. destruct v; simpl; split; intros; congruence. Qed.

(** ** Submission *)

Lemma handleSubmit_valid {V A} (validate : V -> list Issue)
    (onSubmit : V -> list (effect A)) (v : V) :
  validate v = [] ->
  handleSubmit validate onSubmit v = mkSubmitted v [] (onSubmit v).
Proof. intros H. unfold handleSubmit. now rewrite H. Qed.

Lemma handleSubmit_invalid {V A} (validate : V -> list Issue)
    (onSubmit : V -> list (effect A)) (v : V) :
  validate v <> [] ->
  handleSubmit validate onSubmit v = mkSubmitted v (toFieldErrors (validate v)) [].
Proof. intros H. unfold handleSubmit. destruct (validate v); congruence. Qed.

(** On each path, the field errors show the first of the issues. *)
Lemma issues_at_keep_first (p : list seg) (seen : list (list seg)) (l : list Issue) :
  issues_at p (keep_first seen l)
  = if bool_decide (elem_of p seen) then [] else take 1 (issues_at p l).
Proof.
  unfold issues_at. revert seen. induction l as [|i l IH]; intros seen; simpl.
  - now destruct (bool_decide _).
  - rewrite (filter_cons _ i l).
    destruct (bool_decide (elem_of (path i) seen)) eqn:Hi.
    + rewrite IH. apply bool_decide_eq_true in Hi.
      destruct (bool_decide (elem_of p seen)) eqn:Hp; [reflexivity|].
      apply bool_decide_eq_false in Hp.
      rewrite decide_False; [reflexivity|]. intros Heq. apply Hp. now rewrite <- Heq.
    + apply bool_decide_eq_false in Hi. rewrite filter_cons, IH.
      destruct (decide (path i = p)) as [Heq|Hne].
      * rewrite bool_decide_eq_true_2 by (rewrite Heq; apply list_elem_of_here).
        rewrite bool_decide_eq_false_2 by now rewrite <- Heq.
        reflexivity.
      * destruct (bool_decide (elem_of p seen)) eqn:Hp.
        -- apply bool_decide_eq_true in Hp.
           now rewrite bool_decide_eq_true_2 by now apply list_elem_of_further.
        -- apply bool_decide_eq_false in Hp.
           rewrite bool_decide_eq_false_2; [reflexivity|].
           intros Hin. apply elem_of_cons in Hin as [Hin|Hin]; congruence.
Qed.

Lemma issues_at_toFieldErrors (p : list seg) (l : list Issue) :
  issues_at p (toFieldErrors l) = take 1 (issues_at p l).
Proof.
  unfold toFieldErrors. rewrite issues_at_keep_first.
  rewrite bool_decide_eq_false_2; [reflexivity|]. apply not_elem_of_nil.
Qed.

(** Issues on pairwise different paths all become field errors. *)
Lemma keep_first_nodup (seen : list (list seg)) (l : list Issue) :
  NoDup (path <$> l) ->
  (forall i, In i l -> ~ elem_of (path i) seen) ->
  keep_first seen l = l.
Proof.
  revert seen. induction l as [|i l IH]; intros seen Hnd Hseen; [reflexivity|].
  simpl. rewrite fmap_cons in Hnd. apply NoDup_cons in Hnd as [Hi Hnd].
  rewrite bool_decide_eq_false_2 by (apply Hseen; now left).
  f_equal. apply IH; [exact Hnd|].
  intros j Hj Hin. apply elem_of_cons in Hin as [Hin|Hin].
  - apply Hi. rewrite <- Hin. apply list_elem_of_fmap. exists j.
    split; [reflexivity|now apply list_elem_of_In].
  - apply (Hseen j); [now right|exact Hin].
Qed.

Lemma toFieldErrors_nodup (l : list Issue) :
  NoDup (path <$> l) -> toFieldErrors l = l.
Proof.
  intros H. apply keep_first_nodup; [exact H|].
  intros i _. apply not_elem_of_nil.
Qed.

Lemma toFieldErrors_nonempty (l : list Issue) : l <> [] -> toFieldErrors l <> [].
Proof. destruct l; [congruence|discriminate]. Qed.

Lemma concat_imap_nil {A B} (f : nat -> A -> list B) (l : list A) :
  (forall i x, l !! i = Some x -> f i x = []) -> concat (imap f l) = [].
Proof.
  revert f. induction l as [|x l IH]; intros f H; simpl; [reflexivity|].
  rewrite (H 0 x eq_refl). simpl. apply IH.
  intros i y Hi. apply (H (S i) y Hi).
Qed.

Lemma forallb_lookup {A} (p : A -> bool) (l : list A) i x :
  forallb p l = true -> l !! i = Some x -> p x = true.
Proof.
  intros H Hi. rewrite forallb_forall in H. apply H.
  apply list_elem_of_In. eapply list_elem_of_lookup_2. exact Hi.
Qed.

Lemma required_nonempty p msg v : nonempty v = true -> required p msg v = [].
Proof. destruct v; simpl; [discriminate|reflexivity]. Qed.

Lemma min1_nonempty p msg v : nonempty v = true -> Health.min1 p msg v = [].
Proof. destruct v; simpl; [discriminate|reflexivity]. Qed.

Lemma currency_nonempty (v : js_string) :
  test Financial.currencyRegex v = true -> 1 <= length v.
Proof. destruct v; simpl; [discriminate|lia]. Qed.

(** Each step: the populated form passes its validation. *)

Lemma criminal_complete_valid (d : CriminalHistory.CriminalHistoryFormData) :
  CriminalHistory.complete d = true -> CriminalHistory.validate d = [].
Proof.
  unfold CriminalHistory.complete, CriminalHistory.validate,
    CriminalHistory.offense_details_rendered.
  destruct (CriminalHistory.hasCriminalOffense d); simpl; [|reflexivity].
  intros [_ Hall]%andb_true_iff.
  apply concat_imap_nil. intros i c Hi.
  pose proof (forallb_lookup _ _ _ _ Hall Hi) as Hc.
  unfold CriminalHistory.charge_complete in Hc.
  apply andb_true_iff in Hc as [Hc Hp].
  apply andb_true_iff in Hc as [Hc Ho].
  apply andb_true_iff in Hc as [Hn Hc].
  unfold CriminalHistory.charge_rules.
  rewrite !required_nonempty by assumption. simpl.
  destruct (bool_decide _); [|reflexivity].
  now apply required_nonempty.
Qed.

Lemma substance_complete_valid (d : SubstanceUse.SubstanceUseHistoryFormData) :
  SubstanceUse.complete d = true -> SubstanceUse.validate d = [].
Proof.
  unfold SubstanceUse.complete, SubstanceUse.validate, SubstanceUse.when_blank.
  intros H.
  apply andb_true_iff in H as [H Hs]. apply andb_true_iff in H as [Hh Hi].
  destruct (bool_decide (SubstanceUse.hasSubstanceHistory d = Yes)).
  - apply andb_true_iff in Hh as [Hh Hy]. apply andb_true_iff in Hh as [Hh Hm].
    apply negb_true_iff in Hh, Hm, Hy. rewrite Hh, Hm, Hy. simpl.
    destruct (bool_decide (SubstanceUse.hasInpatientTreatment d = Yes));
      [apply negb_true_iff in Hi; rewrite Hi|];
      (destruct (bool_decide (SubstanceUse.isCleanAndSober d = Yes));
       [apply negb_true_iff in Hs; rewrite Hs|]); reflexivity.
  - simpl.
    destruct (bool_decide (SubstanceUse.hasInpatientTreatment d = Yes));
      [apply negb_true_iff in Hi; rewrite Hi|];
      (destruct (bool_decide (SubstanceUse.isCleanAndSober d = Yes));
       [apply negb_true_iff in Hs; rewrite Hs|]); reflexivity.
Qed.

Lemma children_complete_valid (d : Children.FormValues) :
  Children.complete d = true -> Children.validate d = [].
Proof.
  unfold Children.complete, Children.validate. intros Hall.
  apply concat_imap_nil. intros i c Hi.
  pose proof (forallb_lookup _ _ _ _ Hall Hi) as Hc.
  unfold Children.child_complete in Hc.
  apply andb_true_iff in Hc as [Hc Hg]. apply andb_true_iff in Hc as [Hb Hs].
  unfold Children.child_issues. rewrite Hs.
  destruct (Children.birthday c); try discriminate.
  destruct (Children.gender c); [discriminate|]. reflexivity.
Qed.

Lemma financial_source_complete (d : Financial.FormValues) (s : Financial.source) :
  Financial.source_complete d s = true -> Financial.source_issues d s = [].
Proof.
  unfold Financial.source_complete, Financial.source_issues.
  destruct (Financial.isChecked s d); [|reflexivity].
  intros [Hb Ht]%andb_true_iff. apply negb_true_iff in Hb.
  now rewrite Hb, Ht.
Qed.

Lemma financial_complete_valid (d : Financial.FormValues) :
  Financial.complete d = true -> Financial.validate d = [].
Proof.
  unfold Financial.complete, Financial.validate. intros [Hi Hs]%andb_true_iff.
  unfold Financial.income_issues. rewrite Hi.
  rewrite bool_decide_eq_true_2 by now apply currency_nonempty.
  simpl. unfold Financial.superRefine.
  rewrite forallb_forall in Hs.
  induction Financial.incomeSources as [|s l IH]; simpl; [reflexivity|].
  rewrite financial_source_complete by (apply Hs; now left).
  simpl. apply IH. intros x Hx. apply Hs. now right.
Qed.

Lemma health_complete_valid (d : Health.FormValues) :
  Health.complete d = true -> Health.validate d = [].
Proof.
  unfold Health.complete, Health.validate. intros Hall.
  apply concat_imap_nil. intros i e Hi.
  pose proof (forallb_lookup _ _ _ _ Hall Hi) as He.
  unfold Health.illness_complete in He.
  apply andb_true_iff in He as [He Hm]. apply andb_true_iff in He as [He Hd].
  apply andb_true_iff in He as [Ht Hs].
  unfold Health.illness_issues.
  now rewrite !min1_nonempty by assumption.
Qed.

(** ** Valid submissions *)

(** C1, as the code has it.  In the criminal-history step a submit with every
    required field on screen populated and, under an affirmative answer, at
    least one charge, calls [updateData] with the form values and then
    [nextStep], once each, and nothing else.  The substance-use, children,
    financial and health components take no callbacks from the host: there a
    submit that passes the step's schema shows a toast with the validated
    values and calls neither.  For the health step that means every entry of
    the illness list, on screen or not, has its four texts. *)
Theorem valid_submit_effects
    (c : CriminalHistory.CriminalHistoryFormData)
    (s : SubstanceUse.SubstanceUseHistoryFormData)
    (k : Children.FormValues) (f : Financial.FormValues) (h : Health.FormValues) :
  CriminalHistory.complete c = true ->
  SubstanceUse.complete s = true ->
  Children.complete k = true ->
  Financial.complete f = true ->
  Health.complete h = true ->
  CriminalHistory.submit c = mkSubmitted c [] [UpdateData c; NextStep]
  /\ SubstanceUse.submit s
     = mkSubmitted s [] [Toast "You submitted the following values:" s]
  /\ Children.submit k
     = mkSubmitted k [] [Toast "You submitted the following values:" k]
  /\ Financial.submit f
     = mkSubmitted f [] [Toast "You submitted the following values:" (Financial.parsed f)]
  /\ Health.submit h
     = mkSubmitted h [] [Toast "You submitted the following values:" h].
Proof.
  intros Hc Hs Hk Hf Hh. repeat split.
  - unfold CriminalHistory.submit.
    rewrite handleSubmit_valid by now apply criminal_complete_valid.
    f_equal. unfold CriminalHistory.onSubmit.
    unfold CriminalHistory.complete in Hc.
    destruct (CriminalHistory.hasCriminalOffense c); [|reflexivity].
    destruct (CriminalHistory.charges c); [discriminate|reflexivity].
  - unfold SubstanceUse.submit.
    now rewrite handleSubmit_valid by now apply substance_complete_valid.
  - unfold Children.submit.
    now rewrite handleSubmit_valid by now apply children_complete_valid.
  - unfold Financial.submit.
    now rewrite handleSubmit_valid by now apply financial_complete_valid.
  - unfold Health.submit.
    now rewrite handleSubmit_valid by now apply health_complete_valid.
Qed.

Lemma valid_submit_effects_witness :
  CriminalHistory.submit sample_criminal
  = mkSubmitted sample_criminal [] [UpdateData sample_criminal; NextStep]
  /\ SubstanceUse.submit SubstanceUse.defaultValues
     = mkSubmitted SubstanceUse.defaultValues []
         [Toast "You submitted the following values:" SubstanceUse.defaultValues]
  /\ Children.submit sample_children
     = mkSubmitted sample_children []
         [Toast "You submitted the following values:" sample_children]
  /\ Financial.submit sample_financial
     = mkSubmitted sample_financial []
         [Toast "You submitted the following values:" (Financial.parsed sample_financial)]
  /\ Health.submit sample_health
     = mkSubmitted sample_health []
         [Toast "You submitted the following values:" sample_health].
Proof.
  exact (valid_submit_effects sample_criminal SubstanceUse.defaultValues
           sample_children sample_financial sample_health
           eq_refl eq_refl eq_refl eq_refl eq_refl).
Defined.

(** C1 as stated fails outside the criminal-history step: the substance-use
    form with its default answers is valid, and its submit shows the toast
    and calls neither [updateData] nor [nextStep]. *)
Lemma substance_submit_calls_no_host_callback :
  SubstanceUse.complete SubstanceUse.defaultValues = true
  /\ effects (SubstanceUse.submit SubstanceUse.defaultValues)
     = [Toast "You submitted the following values:" SubstanceUse.defaultValues]
  /\ ~ (count is_UpdateData (effects (SubstanceUse.submit SubstanceUse.defaultValues)) = 1
        /\ count is_NextStep (effects (SubstanceUse.submit SubstanceUse.defaultValues)) = 1).
Proof. repeat split. intros [H _]. vm_compute in H. discriminate. Qed.

(** ** Criminal history: the empty list under an affirmative answer *)

Lemma criminal_empty_list_submit (d : CriminalHistory.CriminalHistoryFormData) :
  CriminalHistory.hasCriminalOffense d = Yes ->
  CriminalHistory.charges d = [] ->
  CriminalHistory.submit d = mkSubmitted d [] [Alert CriminalHistory.alert_message].
Proof.
  intros Hy Hc. unfold CriminalHistory.submit. rewrite handleSubmit_valid.
  - unfold CriminalHistory.onSubmit. now rewrite Hy, Hc.
  - unfold CriminalHistory.validate. rewrite Hc.
    now destruct (CriminalHistory.offense_details_rendered d).
Qed.

(** C2.  With [hasCriminalOffense] Yes and no charge, submit raises the alert:
    no field error is recorded, neither [updateData] nor [nextStep] is
    called, and the form values are as they were. *)
Theorem empty_charges_alert (d : CriminalHistory.CriminalHistoryFormData) :
  CriminalHistory.hasCriminalOffense d = Yes ->
  CriminalHistory.charges d = [] ->
  CriminalHistory.submit d
  = mkSubmitted d [] [Alert CriminalHistory.alert_message]
  /\ count is_Alert (effects (CriminalHistory.submit d)) = 1
  /\ count is_UpdateData (effects (CriminalHistory.submit d)) = 0
  /\ count is_NextStep (effects (CriminalHistory.submit d)) = 0.
Proof.
  intros Hy Hc. rewrite (criminal_empty_list_submit d Hy Hc). repeat split.
Qed.

Lemma empty_charges_alert_witness :
  let d := CriminalHistory.mkFormData Yes [] No in
  CriminalHistory.submit d
  = mkSubmitted d [] [Alert CriminalHistory.alert_message]
  /\ count is_Alert (effects (CriminalHistory.submit d)) = 1
  /\ count is_UpdateData (effects (CriminalHistory.submit d)) = 0
  /\ count is_NextStep (effects (CriminalHistory.submit d)) = 0.
Proof.
  exact (empty_charges_alert (CriminalHistory.mkFormData Yes [] No) eq_refl eq_refl).
Defined.

(** C3.  From any state with an affirmative answer and no charge: submit is
    blocked by the alert and the list is still empty; after Add Offense and a
    name, a charge and an outcome typed into the new entry, whose probation
    answer stays No, the probation block is not on screen, the four probation
    texts are empty, and submit calls [updateData] and [nextStep]; whatever
    a probation text holds, no rule asks for it. *)
Theorem criminal_scenario (st : CriminalHistory.State) (n c o : js_string) :
  CriminalHistory.hasCriminalOffense (CriminalHistory.values st) = Yes ->
  CriminalHistory.charges (CriminalHistory.values st) = [] ->
  n <> [] -> c <> [] -> o <> [] ->
  let st' := CriminalHistory.run
               [CriminalHistory.ClickAddOffense;
                CriminalHistory.EditCharge 0 (CriminalHistory.PersonName n);
                CriminalHistory.EditCharge 0 (CriminalHistory.Charge c);
                CriminalHistory.EditCharge 0 (CriminalHistory.Outcome o)] st in
  let d := CriminalHistory.values st in
  let d' := CriminalHistory.values st' in
  effects (CriminalHistory.submit d) = [Alert CriminalHistory.alert_message]
  /\ CriminalHistory.charges (draft (CriminalHistory.submit d)) = []
  /\ CriminalHistory.charges d'
     = [CriminalHistory.mkCharge n c [] o No [] [] [] []]
  /\ CriminalHistory.probation_details_rendered d' 0 = false
  /\ CriminalHistory.submit d' = mkSubmitted d' [] [UpdateData d'; NextStep]
  /\ (forall f, CriminalHistory.is_probation_detail f = true ->
      CriminalHistory.validate
        (CriminalHistory.values
           (CriminalHistory.handle (CriminalHistory.EditCharge 0 f) st')) = []).
Proof.
  intros Hy Hc Hn Hch Ho.
  destruct st as [[y l w] ks]. simpl in Hy, Hc. subst y l.
  destruct n as [|n0 n]; [congruence|].
  destruct c as [|c0 c]; [congruence|].
  destruct o as [|o0 o]; [congruence|].
  split; [reflexivity|]. split; [reflexivity|]. split; [reflexivity|].
  split; [reflexivity|]. split; [reflexivity|].
  intros f Hf. destruct f; first [discriminate Hf | reflexivity].
Qed.

Lemma criminal_scenario_witness :
  let st := CriminalHistory.step (CriminalHistory.SelectHasCriminalOffense Yes)
              (CriminalHistory.mount (CriminalHistory.mkProps None None None)) in
  let st' := CriminalHistory.run
               [CriminalHistory.ClickAddOffense;
                CriminalHistory.EditCharge 0
                  (CriminalHistory.PersonName (lit "Jane Doe"));
                CriminalHistory.EditCharge 0
                  (CriminalHistory.Charge (lit "Misdemeanor Theft"));
                CriminalHistory.EditCharge 0
                  (CriminalHistory.Outcome (lit "Dismissed"))] st in
  let d := CriminalHistory.values st in
  let d' := CriminalHistory.values st' in
  effects (CriminalHistory.submit d) = [Alert CriminalHistory.alert_message]
  /\ CriminalHistory.charges (draft (CriminalHistory.submit d)) = []
  /\ CriminalHistory.charges d'
     = [CriminalHistory.mkCharge (lit "Jane Doe") (lit "Misdemeanor Theft") []
          (lit "Dismissed") No [] [] [] []]
  /\ CriminalHistory.probation_details_rendered d' 0 = false
  /\ CriminalHistory.submit d' = mkSubmitted d' [] [UpdateData d'; NextStep]
  /\ (forall f, CriminalHistory.is_probation_detail f = true ->
      CriminalHistory.validate
        (CriminalHistory.values
           (CriminalHistory.handle (CriminalHistory.EditCharge 0 f) st')) = []).
Proof.
  apply (criminal_scenario
           (CriminalHistory.step (CriminalHistory.SelectHasCriminalOffense Yes)
              (CriminalHistory.mount (CriminalHistory.mkProps None None None)))
           (lit "Jane Doe") (lit "Misdemeanor Theft") (lit "Dismissed"));
    first [reflexivity | discriminate].
Defined.

(** ** Financial information: the amounts of the income sources *)

Lemma issues_at_app p (l1 l2 : list Issue) :
  issues_at p (l1 ++ l2) = issues_at p l1 ++ issues_at p l2.
Proof. apply filter_app. Qed.

Lemma amount_path_inj (s s' : Financial.source) :
  Financial.amount_path s = Financial.amount_path s' -> s = s'.
Proof. destruct s, s'; intros H; first [reflexivity | discriminate H]. Qed.

Lemma issues_at_required (s s' : Financial.source) :
  issues_at (Financial.amount_path s) [Financial.required_issue s']
  = if decide (s = s') then [Financial.required_issue s'] else [].
Proof.
  unfold issues_at. rewrite filter_cons, filter_nil. simpl.
  destruct (decide (s = s')) as [->|Hne].
  - now rewrite decide_True.
  - rewrite decide_False; [reflexivity|].
    intros H. apply Hne. symmetry. now apply amount_path_inj.
Qed.

Lemma issues_at_format (s s' : Financial.source) :
  issues_at (Financial.amount_path s) [Financial.format_issue s']
  = if decide (s = s') then [Financial.format_issue s'] else [].
Proof.
  unfold issues_at. rewrite filter_cons, filter_nil. simpl.
  destruct (decide (s = s')) as [->|Hne].
  - now rewrite decide_True.
  - rewrite decide_False; [reflexivity|].
    intros H. apply Hne. symmetry. now apply amount_path_inj.
Qed.

Lemma issues_at_source (d : Financial.FormValues) (s s' : Financial.source) :
  issues_at (Financial.amount_path s) (Financial.source_issues d s')
  = if decide (s = s') then Financial.source_issues d s' else [].
Proof.
  unfold Financial.source_issues.
  destruct (Financial.isChecked s' d); [|now destruct (decide (s = s'))].
  destruct (is_blank _); [apply issues_at_required|].
  destruct (negb _); [apply issues_at_format|now destruct (decide (s = s'))].
Qed.

Lemma issues_at_income (s : Financial.source) (v : js_string) :
  issues_at (Financial.amount_path s) (Financial.income_issues v) = [].
Proof.
  unfold Financial.income_issues, issues_at.
  destruct (bool_decide _), (test _ v), s; reflexivity.
Qed.

(** The issues the resolver reports on an amount are those of the
    refinement's pass over that one source. *)
Lemma issues_at_validate (d : Financial.FormValues) (s : Financial.source) :
  issues_at (Financial.amount_path s) (Financial.validate d)
  = Financial.source_issues d s.
Proof.
  unfold Financial.validate, Financial.superRefine, Financial.incomeSources.
  rewrite issues_at_app, issues_at_income. simpl.
  rewrite !issues_at_app, !issues_at_source.
  destruct s; simpl; rewrite ?app_nil_r; reflexivity.
Qed.

Lemma source_issue_blocks (d : Financial.FormValues) (s : Financial.source) :
  Financial.source_issues d s <> [] ->
  Financial.submit d = mkSubmitted d (toFieldErrors (Financial.validate d)) [].
Proof.
  intros H. apply handleSubmit_invalid. intros Hv.
  apply H. now rewrite <- issues_at_validate, Hv.
Qed.

Lemma checked_of_set_amount s s' a (d : Financial.FormValues) :
  Financial.checked_of s' (Financial.set_amount s a d) = Financial.checked_of s' d.
Proof. destruct d, s, s'; reflexivity. Qed.

Lemma amount_of_set_amount s a (d : Financial.FormValues) :
  Financial.amount_of s (Financial.set_amount s a d) = a.
Proof. destruct d, s; reflexivity. Qed.

Lemma amount_of_set_amount_ne s s' a (d : Financial.FormValues) :
  s <> s' ->
  Financial.amount_of s' (Financial.set_amount s a d) = Financial.amount_of s' d.
Proof. destruct d, s, s'; intros H; first [reflexivity | congruence]. Qed.

Lemma income_of_set_amount s a (d : Financial.FormValues) :
  Financial.totalMonthlyIncome (Financial.set_amount s a d)
  = Financial.totalMonthlyIncome d.
Proof. destruct d, s; reflexivity. Qed.

Lemma source_issues_set_amount s s' a (d : Financial.FormValues) :
  Financial.isChecked s d = false ->
  Financial.source_issues (Financial.set_amount s a d) s'
  = Financial.source_issues d s'.
Proof.
  intros Hs. unfold Financial.source_issues, Financial.isChecked in *.
  rewrite checked_of_set_amount.
  destruct (decide (s = s')) as [<-|Hne].
  - now rewrite Hs.
  - now rewrite amount_of_set_amount_ne.
Qed.

Lemma validate_set_amount s a (d : Financial.FormValues) :
  Financial.isChecked s d = false ->
  Financial.validate (Financial.set_amount s a d) = Financial.validate d.
Proof.
  intros Hs. unfold Financial.validate, Financial.superRefine.
  rewrite income_of_set_amount. f_equal. f_equal.
  apply map_ext. intros s'. now apply source_issues_set_amount.
Qed.

(** C4, as the code has it.  With the wages box checked: an amount that is
    absent, empty or only white space is reported on [wages_amount] with the
    message that the amount for wages is required, and submit is blocked; an
    amount that is not blank and does not match the currency expression is
    reported there with the format message, and submit is blocked; the amount
    1,500.00 matches the expression and is not reported, and submit succeeds
    when the total income is a currency string and every other checked source
    has a currency amount. *)
Theorem wages_amount_rules (d : Financial.FormValues) :
  Financial.wages_checked d = Some true ->
  (is_blank (Financial.wages_amount d) = true ->
     issues_at [Key "wages_amount"] (errors (Financial.submit d))
     = [mkIssue [Key "wages_amount"] "custom" (Some "Amount for wages is required.")]
     /\ effects (Financial.submit d) = [])
  /\ (is_blank (Financial.wages_amount d) = false ->
      test Financial.currencyRegex (default [] (Financial.wages_amount d)) = false ->
      issues_at [Key "wages_amount"] (errors (Financial.submit d))
      = [mkIssue [Key "wages_amount"] "custom" (Some "Must be a valid currency amount.")]
      /\ effects (Financial.submit d) = [])
  /\ (Financial.wages_amount d = Some (lit "1,500.00") ->
      test Financial.currencyRegex (lit "1,500.00") = true
      /\ issues_at [Key "wages_amount"] (Financial.validate d) = []
      /\ (test Financial.currencyRegex (Financial.totalMonthlyIncome d) = true ->
          (forall s, s <> Financial.wages -> Financial.source_complete d s = true) ->
          Financial.submit d
          = mkSubmitted d [] [Toast "You submitted the following values:"
                                    (Financial.parsed d)])).
Proof.
  intros Hc.
  assert (Financial.isChecked Financial.wages d = true) as Hck
    by (unfold Financial.isChecked; simpl; now rewrite Hc).
  pose proof (issues_at_validate d Financial.wages) as Hat.
  unfold Financial.source_issues in Hat. rewrite Hck in Hat.
  change (Financial.amount_of Financial.wages d) with (Financial.wages_amount d) in Hat.
  change (Financial.amount_path Financial.wages) with [Key "wages_amount"] in Hat.
  split; [|split].
  - intros Hb. rewrite Hb in Hat.
    rewrite (source_issue_blocks d Financial.wages).
    + simpl. now rewrite issues_at_toFieldErrors, Hat.
    + unfold Financial.source_issues. rewrite Hck. simpl. now rewrite Hb.
  - intros Hb Ht. rewrite Hb, Ht in Hat. simpl in Hat.
    rewrite (source_issue_blocks d Financial.wages).
    + simpl. now rewrite issues_at_toFieldErrors, Hat.
    + unfold Financial.source_issues. rewrite Hck. simpl. now rewrite Hb, Ht.
  - intros Ha. rewrite Ha in Hat. split; [reflexivity|]. split; [exact Hat|].
    intros Hi Hs. unfold Financial.submit.
    rewrite handleSubmit_valid; [reflexivity|].
    apply financial_complete_valid. unfold Financial.complete.
    rewrite Hi, andb_true_l. apply forallb_forall. intros s _.
    destruct (decide (s = Financial.wages)) as [->|Hne]; [|now apply Hs].
    unfold Financial.source_complete. rewrite Hck. simpl. now rewrite Ha.
Qed.

Lemma wages_amount_rules_witness :
  (issues_at [Key "wages_amount"] (errors (Financial.submit (sample_wages None)))
   = [mkIssue [Key "wages_amount"] "custom" (Some "Amount for wages is required.")]
   /\ effects (Financial.submit (sample_wages None)) = [])
  /\ (issues_at [Key "wages_amount"]
        (errors (Financial.submit (sample_wages (Some (lit "abc")))))
      = [mkIssue [Key "wages_amount"] "custom" (Some "Must be a valid currency amount.")]
      /\ effects (Financial.submit (sample_wages (Some (lit "abc")))) = [])
  /\ test Financial.currencyRegex (lit "1,500.00") = true
  /\ Financial.submit sample_financial
     = mkSubmitted sample_financial []
         [Toast "You submitted the following values:" (Financial.parsed sample_financial)].
Proof.
  destruct (wages_amount_rules (sample_wages None) eq_refl) as (Hblank & _ & _).
  destruct (wages_amount_rules (sample_wages (Some (lit "abc"))) eq_refl)
    as (_ & Hformat & _).
  destruct (wages_amount_rules sample_financial eq_refl) as (_ & _ & H).
  destruct (H eq_refl) as (Hm & _ & Hs).
  split; [exact (Hblank eq_refl)|].
  split; [exact (Hformat eq_refl eq_refl)|].
  split; [exact Hm|].
  apply Hs; [reflexivity|].
  intros s _. destruct s; reflexivity.
Defined.

(** C4 as stated fails in two places.  A single space is a non-empty amount
    that does not match the currency expression, yet it is reported as a
    missing amount, not as a badly formatted one; and the amount 1,500.00
    does not by itself let the submit through: with the total income left
    empty the submit is blocked. *)
Lemma blank_amount_is_not_a_format_error :
  let d := Financial.mkFormValues (lit "2,000.00") None None None None
             (Some true) (Some (lit " ")) None None None None None None None None
             None None in
  let d' := Financial.mkFormValues [] None None None None
              (Some true) (Some (lit "1,500.00")) None None None None None None
              None None None None in
  (Financial.wages_checked d = Some true
   /\ Financial.wages_amount d = Some (lit " ") /\ lit " " <> []
   /\ test Financial.currencyRegex (lit " ") = false
   /\ errors (Financial.submit d) = [Financial.required_issue Financial.wages]
   /\ ~ In (Financial.format_issue Financial.wages) (errors (Financial.submit d)))
  /\ (Financial.wages_checked d' = Some true
      /\ Financial.wages_amount d' = Some (lit "1,500.00")
      /\ effects (Financial.submit d') = []
      /\ errors (Financial.submit d') <> []).
Proof.
  repeat split; try discriminate.
  intros [H|[]]. discriminate H.
Qed.

(** C10.  For a source whose box is not checked (false or never touched) the
    amount is not looked at: whatever is written into it, the resolver
    reports exactly what it reported before and nothing on the amount's
    path; and when the form is valid the value written is in the submitted
    data. *)
Theorem unchecked_amount_ignored (d : Financial.FormValues) (s : Financial.source)
    (a : option js_string) :
  Financial.isChecked s d = false ->
  let d' := Financial.set_amount s a d in
  Financial.validate d' = Financial.validate d
  /\ issues_at (Financial.amount_path s) (Financial.validate d') = []
  /\ (Financial.validate d = [] ->
      Financial.submit d'
      = mkSubmitted d' [] [Toast "You submitted the following values:"
                                 (Financial.parsed d')]
      /\ Financial.out_amount_of s (Financial.parsed d') = a).
Proof.
  intros Hs d'. subst d'. split; [now apply validate_set_amount|]. split.
  - rewrite issues_at_validate. unfold Financial.source_issues, Financial.isChecked in *.
    now rewrite checked_of_set_amount, Hs.
  - intros Hv. split.
    + unfold Financial.submit.
      rewrite handleSubmit_valid; [reflexivity|]. now rewrite validate_set_amount.
    + destruct d, s; reflexivity.
Qed.

Lemma unchecked_amount_ignored_witness :
  let d := Financial.set_checked Financial.wages false sample_financial in
  let d' := Financial.set_amount Financial.wages (Some (lit "abc")) d in
  Financial.validate d' = Financial.validate d
  /\ issues_at (Financial.amount_path Financial.wages) (Financial.validate d') = []
  /\ Financial.submit d'
     = mkSubmitted d' [] [Toast "You submitted the following values:"
                                (Financial.parsed d')]
  /\ Financial.out_amount_of Financial.wages (Financial.parsed d') = Some (lit "abc").
Proof.
  destruct (unchecked_amount_ignored
              (Financial.set_checked Financial.wages false sample_financial)
              Financial.wages (Some (lit "abc")) eq_refl) as (Hv & Hp & Hs).
  destruct (Hs eq_refl) as (Hs1 & Hs2).
  exact (conj Hv (conj Hp (conj Hs1 Hs2))).
Defined.

(** ** Reachable states *)

Section Reachability.
Context {S A : Type} (step : A -> S -> S) (P : S -> Prop).
Hypothesis step_preserves : forall a st, P st -> P (step a st).

Lemma run_actions_preserves (acts : list A) (st : S) :
  P st -> P (run_actions step acts st).
Proof using step_preserves.
  revert st. induction acts as [|a acts IH]; intros st H; [exact H|].
  apply IH, step_preserves, H.
Qed.
End Reachability.

(** ** Field arrays *)






Lemma health_set_chronicIllnesses_get l (d : Health.FormValues) :
  Health.chronicIllnesses (Health.set_chronicIllnesses l d) = l
  /\ Health.hasChronicIllness (Health.set_chronicIllnesses l d)
     = Health.hasChronicIllness d.
Proof. destruct d; split; reflexivity. Qed.








(** ** Conditional blocks *)

(** C7.  For a charge on screen at position [i]: answering Yes to its
    probation question puts its probation block on screen, answering No
    afterwards takes it off again, and for every other position [j] neither
    answer changes whether that entry's probation block is on screen, nor the
    entry itself. *)
Theorem probation_toggle_is_local (st : CriminalHistory.State) (i j : nat) :
  CriminalHistory.offense_details_rendered (CriminalHistory.values st) = true ->
  i < length (CriminalHistory.charges (CriminalHistory.values st)) ->
  let shown := CriminalHistory.step
                 (CriminalHistory.EditCharge i (CriminalHistory.AreTheyOnProbation Yes)) st in
  let hidden := CriminalHistory.step
                  (CriminalHistory.EditCharge i (CriminalHistory.AreTheyOnProbation No)) shown in
  CriminalHistory.probation_details_rendered (CriminalHistory.values shown) i = true
  /\ CriminalHistory.probation_details_rendered (CriminalHistory.values hidden) i = false
  /\ (j <> i ->
      CriminalHistory.probation_details_rendered (CriminalHistory.values shown) j
      = CriminalHistory.probation_details_rendered (CriminalHistory.values st) j
      /\ CriminalHistory.probation_details_rendered (CriminalHistory.values hidden) j
         = CriminalHistory.probation_details_rendered (CriminalHistory.values st) j
      /\ CriminalHistory.charges (CriminalHistory.values shown) !! j
         = CriminalHistory.charges (CriminalHistory.values st) !! j
      /\ CriminalHistory.charges (CriminalHistory.values hidden) !! j
         = CriminalHistory.charges (CriminalHistory.values st) !! j).
Proof.
  intros Hr Hi shown hidden.
  destruct st as [[y cs w] k]. simpl in Hr, Hi.
  assert (shown = CriminalHistory.mkState
            (CriminalHistory.mkFormData y
               (alter (CriminalHistory.write_charge
                         (CriminalHistory.AreTheyOnProbation Yes)) i cs) w) k) as Hs.
  { subst shown. unfold CriminalHistory.step. simpl. rewrite Hr.
    now rewrite bool_decide_eq_true_2 by exact Hi. }
  assert (hidden = CriminalHistory.mkState
            (CriminalHistory.mkFormData y
               (alter (CriminalHistory.write_charge
                         (CriminalHistory.AreTheyOnProbation No)) i
                  (alter (CriminalHistory.write_charge
                            (CriminalHistory.AreTheyOnProbation Yes)) i cs)) w) k) as Hh.
  { subst hidden. rewrite Hs. unfold CriminalHistory.step. simpl.
    unfold CriminalHistory.offense_details_rendered in *. simpl in *. rewrite Hr.
    now rewrite bool_decide_eq_true_2 by (rewrite length_alter; exact Hi). }
  rewrite Hs, Hh. clear Hs Hh shown hidden.
  unfold CriminalHistory.probation_details_rendered, CriminalHistory.chargeProbation,
    CriminalHistory.offense_details_rendered in *. simpl in *. rewrite Hr. simpl.
  destruct (lookup_lt_is_Some_2 cs i Hi) as [e He].
  split; [|split].
  - rewrite list_lookup_alter_eq, He. now destruct e.
  - rewrite !list_lookup_alter_eq, He. now destruct e.
  - intros Hne.
    rewrite !list_lookup_alter_ne by congruence. repeat split.
Qed.

Lemma probation_toggle_is_local_witness :
  let st := CriminalHistory.mkState
              (CriminalHistory.mkFormData Yes
                 [sample_charge; CriminalHistory.initialCharge] No)
              (mkKeys [0; 1] 2) in
  let shown := CriminalHistory.step
                 (CriminalHistory.EditCharge 0 (CriminalHistory.AreTheyOnProbation Yes)) st in
  let hidden := CriminalHistory.step
                  (CriminalHistory.EditCharge 0 (CriminalHistory.AreTheyOnProbation No)) shown in
  CriminalHistory.probation_details_rendered (CriminalHistory.values shown) 0 = true
  /\ CriminalHistory.probation_details_rendered (CriminalHistory.values hidden) 0 = false
  /\ CriminalHistory.probation_details_rendered (CriminalHistory.values shown) 1
     = CriminalHistory.probation_details_rendered (CriminalHistory.values st) 1
  /\ CriminalHistory.probation_details_rendered (CriminalHistory.values hidden) 1
     = CriminalHistory.probation_details_rendered (CriminalHistory.values st) 1
  /\ CriminalHistory.charges (CriminalHistory.values shown) !! 1
     = CriminalHistory.charges (CriminalHistory.values st) !! 1
  /\ CriminalHistory.charges (CriminalHistory.values hidden) !! 1
     = CriminalHistory.charges (CriminalHistory.values st) !! 1.
Proof.
  assert (1 < 2) as Hlt by lia.
  destruct (probation_toggle_is_local
              (CriminalHistory.mkState
                 (CriminalHistory.mkFormData Yes
                    [sample_charge; CriminalHistory.initialCharge] No)
                 (mkKeys [0; 1] 2)) 0 1 eq_refl (Nat.lt_trans 0 1 2 Nat.lt_0_1 Hlt))
    as (Hs & Hh & Hj).
  destruct (Hj (Nat.neq_succ_0 0)) as (H1 & H2 & H3 & H4).
  exact (conj Hs (conj Hh (conj H1 (conj H2 (conj H3 H4))))).
Defined.

(** ** Health: the list of chronic illnesses *)

(** After the effect has run, an affirmative answer comes with an entry. *)
Lemma health_useEffect_settled (st : Health.State) :
  Health.hasChronicIllness (Health.values (Health.useEffect st)) = true ->
  Health.chronicIllnesses (Health.values (Health.useEffect st)) <> [].
Proof.
  unfold Health.useEffect.
  destruct (Health.hasChronicIllness (Health.values st)) eqn:Hf; simpl.
  - destruct (Health.chronicIllnesses (Health.values st)) eqn:Hl; simpl.
    + intros _. now rewrite (proj1 (health_set_chronicIllnesses_get _ _)).
    + intros _. now rewrite Hl.
  - congruence.
Qed.

Lemma health_step_settled (a : Health.Action) (st : Health.State) :
  (Health.hasChronicIllness (Health.values st) = true ->
   Health.chronicIllnesses (Health.values st) <> []) ->
  Health.hasChronicIllness (Health.values (Health.step a st)) = true ->
  Health.chronicIllnesses (Health.values (Health.step a st)) <> [].
Proof.
  intros H. unfold Health.step. destruct (Health.available a st); [|exact H].
  apply health_useEffect_settled.
Qed.

Lemma health_run_settled (acts : list Health.Action) (st : Health.State) :
  (Health.hasChronicIllness (Health.values st) = true ->
   Health.chronicIllnesses (Health.values st) <> []) ->
  Health.hasChronicIllness (Health.values (Health.run acts st)) = true ->
  Health.chronicIllnesses (Health.values (Health.run acts st)) <> [].
Proof.
  apply (run_actions_preserves Health.step
           (fun s => Health.hasChronicIllness (Health.values s) = true ->
                     Health.chronicIllnesses (Health.values s) <> [])).
  intros a s. apply health_step_settled.
Qed.

Lemma health_write_chronic_list b (d : Health.FormValues) :
  Health.chronicIllnesses (Health.write (Health.Set_hasChronicIllness b) d)
  = Health.chronicIllnesses d
  /\ Health.hasChronicIllness (Health.write (Health.Set_hasChronicIllness b) d) = b.
Proof. destruct d; split; reflexivity. Qed.

(** C9.  In every state the health page can reach from its mount by user
    actions (answers, edits, Add, Remove, Reset), an affirmative
    [hasChronicIllness] comes with a non-empty list.  Answering Yes over an
    empty list appends one entry with the default values, and with exactly
    one entry no Remove control is rendered. *)
Theorem chronic_illness_list_nonempty (acts : list Health.Action)
    (st : Health.State) (i : nat) :
  (Health.hasChronicIllness (Health.values (Health.run acts Health.mount)) = true ->
   Health.chronicIllnesses (Health.values (Health.run acts Health.mount)) <> [])
  /\ (Health.chronicIllnesses (Health.values st) = [] ->
      let st' := Health.step (Health.Change (Health.Set_hasChronicIllness true)) st in
      Health.hasChronicIllness (Health.values st') = true
      /\ Health.chronicIllnesses (Health.values st') = [Health.newIllness])
  /\ (length (Health.chronicIllnesses (Health.values st)) = 1 ->
      Health.remove_rendered (Health.values st) i = false
      /\ Health.step (Health.ClickRemoveIllness i) st = st).
Proof.
  split; [|split].
  - apply health_run_settled. discriminate.
  - intros Hl. destruct st as [d k]. destruct d. simpl in Hl. subst.
    split; reflexivity.
  - intros H1.
    assert (Health.remove_rendered (Health.values st) i = false) as Hr.
    { unfold Health.remove_rendered. rewrite H1.
      rewrite (bool_decide_eq_false_2 (1 < 1)) by lia. apply andb_false_r. }
    split; [exact Hr|]. unfold Health.step. simpl. now rewrite Hr.
Qed.

Lemma chronic_illness_list_nonempty_witness :
  let acts := [Health.Change (Health.Set_hasChronicIllness true);
               Health.ClickAddIllness;
               Health.ClickRemoveIllness 0;
               Health.ClickRemoveIllness 0] in
  Health.chronicIllnesses (Health.values (Health.run acts Health.mount)) <> []
  /\ (Health.hasChronicIllness (Health.values sample_health_state) = true
      /\ Health.chronicIllnesses (Health.values sample_health_state) = [Health.newIllness])
  /\ Health.remove_rendered (Health.values sample_health_state) 0 = false
  /\ Health.step (Health.ClickRemoveIllness 0) sample_health_state = sample_health_state.
Proof.
  destruct (chronic_illness_list_nonempty
              [Health.Change (Health.Set_hasChronicIllness true);
               Health.ClickAddIllness;
               Health.ClickRemoveIllness 0;
               Health.ClickRemoveIllness 0] Health.mount 0) as (Hinv & Hyes & _).
  destruct (chronic_illness_list_nonempty [] sample_health_state 0) as (_ & _ & Hone).
  split; [exact (Hinv eq_refl)|].
  split; [exact (Hyes eq_refl)|].
  exact (Hone eq_refl).
Defined.

(** ** Hidden blocks keep their values *)

Ltac by_fields :=
  intros d g; destruct d; repeat split.

(** C8.  For every conditional block of the five steps, writing the governing
    answer changes that answer and nothing else: the block is on screen
    exactly when the answer is the triggering one, its values stay in the
    form values while it is hidden, and writing the old answer back gives the
    form values as they were.  In the health step this also holds
    with the list effect: from a reachable state with an affirmative
    [hasChronicIllness], answering No and then Yes gives the same state. *)
Theorem hidden_values_persist (src : Financial.source) (f : Financial.FormValues)
    (b b0 : bool) (st : CriminalHistory.State) (i : nat)
    (e : CriminalHistory.CriminalCharge) (v : YesNo) (acts : list Health.Action) :
  let is_yes := fun a : YesNo => bool_decide (a = Yes) in
  hides_without_clearing
    (fun s => CriminalHistory.hasCriminalOffense (CriminalHistory.values s))
    (fun a => CriminalHistory.step (CriminalHistory.SelectHasCriminalOffense a))
    is_yes
    (fun s => CriminalHistory.offense_details_rendered (CriminalHistory.values s))
    (fun s => (CriminalHistory.charges (CriminalHistory.values s), CriminalHistory.keys s))
  /\ hides_without_clearing CriminalHistory.areTheyOnProbation
       (fun a => CriminalHistory.write_charge (CriminalHistory.AreTheyOnProbation a))
       is_yes (fun c => is_yes (CriminalHistory.areTheyOnProbation c))
       (fun c => (CriminalHistory.probationOfficer c, CriminalHistory.lengthOfProbation c,
                  CriminalHistory.startDate c, CriminalHistory.endDate c))
  /\ (CriminalHistory.charges (CriminalHistory.values st) !! i = Some e ->
      CriminalHistory.charges
        (CriminalHistory.values
           (CriminalHistory.handle
              (CriminalHistory.EditCharge i (CriminalHistory.AreTheyOnProbation v)) st)) !! i
      = Some (CriminalHistory.write_charge (CriminalHistory.AreTheyOnProbation v) e))
  /\ hides_without_clearing SubstanceUse.hasSubstanceHistory
       SubstanceUse.set_hasSubstanceHistory is_yes SubstanceUse.history_fields_rendered
       (fun d => (SubstanceUse.substances d, SubstanceUse.lastUseMonth d,
                  SubstanceUse.lastUseYear d))
  /\ hides_without_clearing SubstanceUse.isCleanAndSober
       SubstanceUse.set_isCleanAndSober is_yes SubstanceUse.sobriety_plan_rendered
       SubstanceUse.sobrietyPlan
  /\ hides_without_clearing SubstanceUse.hasInpatientTreatment
       SubstanceUse.set_hasInpatientTreatment is_yes
       SubstanceUse.inpatient_details_rendered SubstanceUse.inpatientDetails
  /\ (Financial.amount_of src (Financial.set_checked src b f) = Financial.amount_of src f
      /\ Financial.checked_of src (Financial.set_checked src b f) = Some b
      /\ Financial.amount_visible src (Financial.set_checked src b f) = b
      /\ (Financial.checked_of src f = Some b0 ->
          Financial.set_checked src b0 (Financial.set_checked src b f) = f))
  /\ hides_without_clearing Health.hasChronicIllness
       (fun a => Health.write (Health.Set_hasChronicIllness a))
       id Health.illnesses_rendered Health.chronicIllnesses
  /\ hides_without_clearing Health.hasPhysicalDisabilities
       (fun a => Health.write (Health.Set_hasPhysicalDisabilities a))
       id (Health.rendered (Health.Set_physicalDisabilitiesExplanation []))
       Health.physicalDisabilitiesExplanation
  /\ hides_without_clearing Health.hasHealthInsurance
       (fun a => Health.write (Health.Set_hasHealthInsurance a))
       id (Health.rendered (Health.Set_healthInsuranceType []))
       (fun d => (Health.healthInsuranceType d, Health.healthInsuranceCoverage d))
  /\ hides_without_clearing Health.hasDentalInsurance
       (fun a => Health.write (Health.Set_hasDentalInsurance a))
       id (Health.rendered (Health.Set_dentalInsuranceCoverage_spouse false))
       Health.dentalInsuranceCoverage
  /\ hides_without_clearing Health.mammogramStatus
       (fun a => Health.write (Health.Set_mammogramStatus a))
       (fun a => bool_decide (a = Health.yes))
       (Health.rendered (Health.Set_lastMammogram_month []))
       Health.lastMammogram
  /\ hides_without_clearing Health.hasMentalIllness
       (fun a => Health.write (Health.Set_hasMentalIllness a))
       id (Health.rendered (Health.Set_mentalHealthTreatmentExplanation []))
       (fun d => (Health.receivingMentalHealthTreatment d,
                  Health.mentalHealthTreatmentExplanation d))
  /\ (let h := Health.run acts Health.mount in
      Health.hasChronicIllness (Health.values h) = true ->
      let hidden := Health.step (Health.Change (Health.Set_hasChronicIllness false)) h in
      Health.illnesses_rendered (Health.values hidden) = false
      /\ Health.chronicIllnesses (Health.values hidden) = Health.chronicIllnesses (Health.values h)
      /\ Health.step (Health.Change (Health.Set_hasChronicIllness true)) hidden = h).
Proof.
  intros is_yes.
  split; [intros [[y cs w] k] g; repeat split|].
  split; [by_fields|].
  split; [intros He; simpl; now rewrite list_lookup_alter_eq, He|].
  split; [by_fields|]. split; [by_fields|]. split; [by_fields|].
  split.
  { split; [destruct f, src; reflexivity|].
    split; [destruct f, src; reflexivity|].
    split; [destruct f, src; reflexivity|].
    intros H. destruct f, src; simpl in *; now subst. }
  split; [by_fields|]. split; [by_fields|]. split; [by_fields|].
  split; [by_fields|]. split; [by_fields|]. split; [by_fields|].
  intros h Hf hidden.
  pose proof (health_run_settled acts Health.mount (fun H => ltac:(discriminate H)) Hf)
    as Hne.
  subst hidden. fold h in Hne. clearbody h.
  destruct h as [d k]. destruct d. simpl in Hf, Hne. subst.
  destruct chronicIllnesses as [|x l]; [congruence|].
  repeat split.
Qed.

Lemma hidden_values_persist_witness :
  let h := Health.run [Health.Change (Health.Set_hasChronicIllness true);
                       Health.EditIllness 0 (Health.Type_ (lit "Diabetes"))]
             Health.mount in
  let hidden := Health.step (Health.Change (Health.Set_hasChronicIllness false)) h in
  (Health.illnesses_rendered (Health.values hidden) = false
   /\ Health.chronicIllnesses (Health.values hidden)
      = [Health.mkIllness (lit "Diabetes") [] [] [] false false]
   /\ Health.step (Health.Change (Health.Set_hasChronicIllness true)) hidden = h)
  /\ Financial.set_checked Financial.wages true
       (Financial.set_checked Financial.wages false sample_financial)
     = sample_financial
  /\ CriminalHistory.charges
       (CriminalHistory.values
          (CriminalHistory.handle
             (CriminalHistory.EditCharge 0 (CriminalHistory.AreTheyOnProbation No))
             sample_criminal_state)) !! 0
     = Some sample_charge.
Proof.
  destruct (hidden_values_persist Financial.wages sample_financial false true
              sample_criminal_state 0 sample_charge No
              [Health.Change (Health.Set_hasChronicIllness true);
               Health.EditIllness 0 (Health.Type_ (lit "Diabetes"))])
    as (_ & _ & Hc & _ & _ & _ & (_ & _ & _ & Hf) & _ & _ & _ & _ & _ & _ & Hh).
  split; [exact (Hh eq_refl)|].
  split; [exact (Hf eq_refl)|].
  exact (Hc eq_refl).
Defined.

(** * Further properties of the step forms *)

(** ** The regular expressions *)

Lemma matches_eps_inv (s : js_string) : matches Eps s -> s = [].
Proof. intros H. now inversion H. Qed.

Lemma matches_void_inv (s : js_string) : matches Void s -> False.
Proof. intros H. inversion H. Qed.

Lemma matches_class_inv p (s : js_string) :
  matches (Class p) s -> exists c, s = [c] /\ p c = true.
Proof. intros H. inversion H; subst. eauto. Qed.

Lemma matches_cat_inv r1 r2 (s : js_string) :
  matches (Cat r1 r2) s ->
  exists s1 s2, s = s1 ++ s2 /\ matches r1 s1 /\ matches r2 s2.
Proof. intros H. inversion H; subst. eauto. Qed.

Lemma matches_alt_inv r1 r2 (s : js_string) :
  matches (Alt r1 r2) s -> matches r1 s \/ matches r2 s.
Proof. intros H. inversion H; subst; auto. Qed.

Lemma nullable_matches (r : regex) : nullable r = true <-> matches r [].
Proof.
  induction r as [| |p|r1 IH1 r2 IH2|r1 IH1 r2 IH2|r IH]; simpl.
  - split; [discriminate|]. intros H. destruct (matches_void_inv _ H).
  - split; [constructor|reflexivity].
  - split; [discriminate|].
    intros H. apply matches_class_inv in H as (c & Hc & _). discriminate Hc.
  - rewrite andb_true_iff, IH1, IH2. split.
    + intros [H1 H2]. exact (matches_cat _ _ [] [] H1 H2).
    + intros H. apply matches_cat_inv in H as (s1 & s2 & Heq & H1 & H2).
      symmetry in Heq. apply app_eq_nil in Heq as [-> ->]. now split.
  - rewrite orb_true_iff, IH1, IH2. split.
    + intros [H|H]; [now apply matches_alt_l | now apply matches_alt_r].
    + apply matches_alt_inv.
  - split; [constructor|reflexivity].
Qed.

Lemma matches_star_cons (r : regex) (c : N) (s : js_string) :
  matches (Star r) (c :: s) ->
  exists s1 s2, s = s1 ++ s2 /\ matches r (c :: s1) /\ matches (Star r) s2.
Proof.
  intros H. remember (Star r) as r' eqn:Hr. remember (c :: s) as w eqn:Hw.
  revert s Hw. induction H as [| | | | | |r0 s1 s2 H1 _ H2 IH2]; intros t Hw;
    try discriminate.
  injection Hr as ->. destruct s1 as [|c1 s1].
  - simpl in Hw. now apply IH2.
  - injection Hw as Hc Ht. subst c1 t. now exists s1, s2.
Qed.

Lemma deriv_matches (c : N) (r : regex) (s : js_string) :
  matches (deriv c r) s <-> matches r (c :: s).
Proof.
  revert s. induction r as [| |p|r1 IH1 r2 IH2|r1 IH1 r2 IH2|r IH]; intros s; simpl.
  - split; intros H; destruct (matches_void_inv _ H).
  - split; intros H; [destruct (matches_void_inv _ H)|].
    apply matches_eps_inv in H. discriminate H.
  - destruct (p c) eqn:Hp.
    + split; intros H.
      * apply matches_eps_inv in H as ->. now constructor.
      * apply matches_class_inv in H as (c' & Heq & _).
        injection Heq as _ ->. constructor.
    + split; intros H; [destruct (matches_void_inv _ H)|].
      apply matches_class_inv in H as (c' & Heq & Hc').
      injection Heq as -> _. congruence.
  - assert (matches (Cat (deriv c r1) r2) s ->
            matches (Cat r1 r2) (c :: s)) as Hleft.
    { intros H. apply matches_cat_inv in H as (s1 & s2 & -> & H1 & H2).
      apply IH1 in H1. exact (matches_cat _ _ (c :: s1) s2 H1 H2). }
    assert (matches (Cat r1 r2) (c :: s) ->
            matches (Cat (deriv c r1) r2) s
            \/ (matches r1 [] /\ matches r2 (c :: s))) as Hinv.
    { intros H. apply matches_cat_inv in H as (s1 & s2 & Heq & H1 & H2).
      destruct s1 as [|c1 s1].
      - right. simpl in Heq. subst. now split.
      - injection Heq as Hc Hs. subst c1 s. left.
        apply matches_cat; [now apply IH1|exact H2]. }
    destruct (nullable r1) eqn:Hn.
    + split.
      * intros H. apply matches_alt_inv in H as [H|H]; [now apply Hleft|].
        apply nullable_matches in Hn. apply IH2 in H.
        exact (matches_cat _ _ [] (c :: s) Hn H).
      * intros H. destruct (Hinv H) as [H'|[_ H']];
          [now apply matches_alt_l | apply matches_alt_r; now apply IH2].
    + split; [exact Hleft|]. intros H. destruct (Hinv H) as [H'|[H' _]]; [exact H'|].
      apply nullable_matches in H'. congruence.
  - split; intros H; apply matches_alt_inv in H as [H|H];
      first [apply matches_alt_l; now apply IH1 | apply matches_alt_r; now apply IH2].
  - split.
    + intros H. apply matches_cat_inv in H as (s1 & s2 & -> & H1 & H2).
      apply IH in H1. exact (matches_star_app _ (c :: s1) s2 H1 H2).
    + intros H. apply matches_star_cons in H as (s1 & s2 & -> & H1 & H2).
      apply matches_cat; [now apply IH|exact H2].
Qed.

(** Matching by derivatives decides the language of the expression. *)
Lemma test_matches (r : regex) (s : js_string) :
  test r s = true <-> matches r s.
Proof.
  revert r. induction s as [|c s IH]; intros r; simpl.
  - apply nullable_matches.
  - rewrite IH. apply deriv_matches.
Qed.

Lemma matches_within (P : N -> Prop) (r : regex) (s : js_string) :
  classes_within P r -> matches r s -> Forall P s.
Proof.
  intros Hr H. induction H; simpl in Hr.
  - constructor.
  - constructor; [now apply Hr|constructor].
  - apply Forall_app. split; [apply IHmatches1 | apply IHmatches2]; tauto.
  - apply IHmatches; tauto.
  - apply IHmatches; tauto.
  - constructor.
  - apply Forall_app. split; [now apply IHmatches1 | now apply IHmatches2].
Qed.

Lemma matches_times_class (n : nat) (p : N -> bool) (s : js_string) :
  matches (Times n (Class p)) s <-> length s = n /\ forallb p s = true.
Proof.
  revert s. induction n as [|n IH]; intros s; simpl.
  - split.
    + intros H. apply matches_eps_inv in H as ->. now split.
    + intros [Hl _]. destruct s; [constructor|discriminate].
  - split.
    + intros H. apply matches_cat_inv in H as (s1 & s2 & -> & H1 & H2).
      apply matches_class_inv in H1 as (c & -> & Hc).
      apply IH in H2 as [Hl Hp]. simpl. rewrite Hc, Hp, Hl. now split.
    + intros [Hl Hp]. destruct s as [|c s]; [discriminate|].
      simpl in Hl, Hp. apply andb_true_iff in Hp as [Hc Hp].
      apply (matches_cat _ _ [c] s); [now constructor|].
      apply IH. split; [lia|exact Hp].
Qed.

Lemma matches_opt_nil (r : regex) : matches (Opt r) [].
Proof. apply matches_alt_r. constructor. Qed.

Lemma is_char_eq (a : ascii) (c : N) : is_char a c = true <-> c = N_of_ascii a.
Proof. unfold is_char. apply N.eqb_eq. Qed.

Lemma digit_not_white_space (c : N) :
  is_digit c = true -> is_white_space c = false.
Proof.
  unfold is_digit, is_white_space. intros H.
  apply andb_true_iff in H as [H1 H2].
  apply N.leb_le in H1, H2.
  repeat match goal with
         | |- (_ || _) = false => apply orb_false_iff; split
         | |- (_ && _) = false => apply andb_false_iff
         end;
    try (apply N.eqb_neq; lia);
    first [right; apply N.leb_gt; lia | left; apply N.leb_gt; lia].
Qed.

(** X1.  The social security number of a child passes the schema exactly
    when it is three digits, a hyphen, two digits, a hyphen and four digits,
    the digits being the ten ASCII ones, with nothing before or after. *)
Theorem ssn_format (s : js_string) :
  test Children.ssnRegex s = true
  <-> exists a b c,
        s = a ++ [45%N] ++ b ++ [45%N] ++ c
        /\ length a = 3 /\ length b = 2 /\ length c = 4
        /\ forallb is_digit a = true /\ forallb is_digit b = true
        /\ forallb is_digit c = true.
Proof.
  rewrite test_matches. unfold Children.ssnRegex. split.
  - intros H.
    apply matches_cat_inv in H as (a & s1 & -> & Ha & H).
    apply matches_cat_inv in H as (h1 & s2 & -> & Hh1 & H).
    apply matches_cat_inv in H as (b & s3 & -> & Hb & H).
    apply matches_cat_inv in H as (h2 & c & -> & Hh2 & Hc).
    apply matches_class_inv in Hh1 as (x & -> & Hx%is_char_eq).
    apply matches_class_inv in Hh2 as (y & -> & Hy%is_char_eq).
    apply matches_times_class in Ha as [? ?], Hb as [? ?], Hc as [? ?].
    subst x y. exists a, b, c. repeat split; assumption.
  - intros (a & b & c & -> & Ha & Hb & Hc & Da & Db & Dc).
    apply matches_cat; [now apply matches_times_class|].
    apply (matches_cat _ _ [45%N]); [now constructor|].
    apply matches_cat; [now apply matches_times_class|].
    apply (matches_cat _ _ [45%N]); [now constructor|].
    now apply matches_times_class.
Qed.

Lemma currency_has_digit (s : js_string) :
  matches Financial.currencyRegex s -> exists c, In c s /\ is_digit c = true.
Proof.
  unfold Financial.currencyRegex. intros H.
  apply matches_cat_inv in H as (s1 & t1 & -> & _ & H).
  apply matches_cat_inv in H as (s2 & t2 & -> & _ & H).
  apply matches_cat_inv in H as (s3 & t3 & -> & H & _).
  apply matches_cat_inv in H as (d & t4 & -> & H & _).
  apply matches_class_inv in H as (c & -> & Hc).
  exists c. split; [|exact Hc].
  apply in_or_app. right. apply in_or_app. right. now left.
Qed.

(** X2.  A string accepted by the currency expression is never blank: it has
    a digit, and every one of its characters is a dollar sign, white space, a
    digit, a comma or a full stop.  So the two tests of an amount, blank and
    badly formatted, cannot both pass. *)
Theorem currency_accepts_only_amounts (s : js_string) :
  test Financial.currencyRegex s = true ->
  is_blank (Some s) = false
  /\ (exists c, In c s /\ is_digit c = true)
  /\ Forall (fun c => c = 36%N \/ is_white_space c = true \/ is_digit c = true
                      \/ c = 44%N \/ c = 46%N) s.
Proof.
  rewrite test_matches. intros H.
  destruct (currency_has_digit s H) as (c & Hin & Hc).
  split; [|split].
  - rewrite is_blank_Some. apply not_true_is_false. intros Hall.
    rewrite forallb_forall in Hall. specialize (Hall c Hin).
    rewrite (digit_not_white_space c Hc) in Hall. discriminate.
  - now exists c.
  - eapply matches_within; [|exact H]. simpl.
    repeat split; intros x Hx;
      first [ apply is_char_eq in Hx; vm_compute in Hx; subst x; auto 10
            | auto 10 ].
Qed.

Lemma digit_groups_match (q : nat) (g : js_string) :
  length g = 3 * q -> forallb is_digit g = true ->
  matches (Star (Cat (Opt (Class (is_char ","))) (Times 3 (Class is_digit)))) g.
Proof.
  revert g. induction q as [|q IH]; intros g Hl Hd.
  - destruct g; [constructor|discriminate].
  - rewrite <- (take_drop 3 g). rewrite <- (take_drop 3 g) in Hd.
    rewrite forallb_app in Hd. apply andb_true_iff in Hd as [Hd1 Hd2].
    apply matches_star_app.
    + apply (matches_cat _ _ [] (take 3 g)); [apply matches_opt_nil|].
      apply matches_times_class. split; [|exact Hd1].
      rewrite length_take. lia.
    + apply IH; [|exact Hd2]. rewrite length_drop. lia.
Qed.

Lemma digit_head_match (h : js_string) :
  1 <= length h <= 3 -> forallb is_digit h = true ->
  matches (Cat (Class is_digit) (Cat (Opt (Class is_digit)) (Opt (Class is_digit)))) h.
Proof.
  intros Hl Hd.
  destruct h as [|a [|b [|c [|x h]]]]; simpl in Hl, Hd; try lia;
    repeat match goal with
           | H : _ && _ = true |- _ => apply andb_true_iff in H as [? ?]
           end.
  - apply (matches_cat _ _ [a] []); [now constructor|].
    apply (matches_cat _ _ [] []); apply matches_opt_nil.
  - apply (matches_cat _ _ [a] [b]); [now constructor|].
    apply (matches_cat _ _ [b] []); [|apply matches_opt_nil].
    apply matches_alt_l. now constructor.
  - apply (matches_cat _ _ [a] [b; c]); [now constructor|].
    apply (matches_cat _ _ [b] [c]); apply matches_alt_l; now constructor.
Qed.

(** X3.  The currency expression does not enforce grouping: every non-empty
    string of digits is accepted, however long and without any comma, also
    after a dollar sign. *)
Theorem currency_accepts_plain_digits (s : js_string) :
  s <> [] -> forallb is_digit s = true ->
  test Financial.currencyRegex s = true
  /\ test Financial.currencyRegex (36%N :: s) = true.
Proof.
  intros Hne Hd.
  assert (exists h g q, s = h ++ g /\ 1 <= length h <= 3 /\ length g = 3 * q)
    as (h & g & q & -> & Hh & Hg).
  { destruct s as [|c s]; [congruence|].
    pose proof (Nat.div_mod_eq (length s) 3) as Hdm.
    pose proof (Nat.mod_upper_bound (length s) 3 ltac:(lia)) as Hub.
    exists (take (S (length s mod 3)) (c :: s)),
           (drop (S (length s mod 3)) (c :: s)), (length s / 3).
    rewrite take_drop, length_take, length_drop. simpl length. repeat split; lia. }
  rewrite forallb_app in Hd. apply andb_true_iff in Hd as [Hdh Hdg].
  assert (matches
            (Cat (Star (Class is_white_space))
               (Cat (Cat (Class is_digit)
                       (Cat (Opt (Class is_digit)) (Opt (Class is_digit))))
                  (Cat (Star (Cat (Opt (Class (is_char ",")))
                                  (Times 3 (Class is_digit))))
                       (Opt (Cat (Class (is_char ".")) (Times 2 (Class is_digit)))))))
            (h ++ g)) as Hbody.
  { apply (matches_cat _ _ [] (h ++ g)); [constructor|].
    apply matches_cat; [now apply digit_head_match|].
    rewrite <- (app_nil_r g).
    apply matches_cat; [now apply (digit_groups_match q)|apply matches_opt_nil]. }
  split; apply test_matches; unfold Financial.currencyRegex.
  - apply (matches_cat _ _ [] (h ++ g)); [apply matches_opt_nil|exact Hbody].
  - apply (matches_cat _ _ [36%N] (h ++ g)); [|exact Hbody].
    apply matches_alt_l. now constructor.
Qed.

Lemma currency_accepts_plain_digits_witness :
  test Financial.currencyRegex (lit "1234567") = true
  /\ test Financial.currencyRegex (36%N :: lit "1234567") = true.
Proof.
  apply (currency_accepts_plain_digits (lit "1234567")); [discriminate|reflexivity].
Defined.

Lemma currency_accepts_only_amounts_witness :
  is_blank (Some (lit "$ 1,500.00")) = false
  /\ (exists c, In c (lit "$ 1,500.00") /\ is_digit c = true)
  /\ Forall (fun c => c = 36%N \/ is_white_space c = true \/ is_digit c = true
                      \/ c = 44%N \/ c = 46%N) (lit "$ 1,500.00").
Proof.
  exact (currency_accepts_only_amounts (lit "$ 1,500.00") eq_refl).
Defined.

(** X4.  The blank test of the refinements, [!v || v.trim() === ''], holds
    exactly of a missing value and of a string made of white space only
    (the empty string included). *)
Theorem blank_values (v : option js_string) :
  is_blank v = true
  <-> v = None \/ exists s, v = Some s /\ Forall (fun c => is_white_space c = true) s.
Proof.
  destruct v as [s|].
  - rewrite is_blank_Some, forallb_forall. split.
    + intros H. right. exists s. split; [reflexivity|].
      apply Forall_forall. intros c Hc. apply H. now apply list_elem_of_In.
    + intros [H|(s' & Hs & H)]; [discriminate|]. injection Hs as <-.
      intros c Hc. rewrite Forall_forall in H. apply H. now apply list_elem_of_In.
  - split; [now left|reflexivity].
Qed.

(** ** Lists of issues *)

Lemma concat_imap_nil_inv {A B} (f : nat -> A -> list B) (l : list A) :
  concat (imap f l) = [] -> forall i x, l !! i = Some x -> f i x = [].
Proof.
  revert f. induction l as [|y l IH]; intros f H i x Hi; [discriminate|].
  simpl in H. apply app_eq_nil in H as [H0 Hl].
  destruct i as [|i]; simpl in Hi.
  - injection Hi as <-. exact H0.
  - exact (IH (fun n => f (S n)) Hl i x Hi).
Qed.

Lemma concat_imap_snoc {A B} (f : nat -> A -> list B) (l : list A) (x : A) :
  concat (imap f (l ++ [x])) = concat (imap f l) ++ f (length l) x.
Proof.
  rewrite imap_app, concat_app. simpl. rewrite app_nil_r.
  now rewrite Nat.add_0_r.
Qed.

Lemma imap_alter_same {A B} (f : nat -> A -> B) (g : A -> A) (i : nat) (l : list A) :
  (forall j x, f j (g x) = f j x) -> imap f (alter g i l) = imap f l.
Proof.
  intros H. apply list_eq. intros j. rewrite !list_lookup_imap.
  destruct (decide (i = j)) as [->|Hne].
  - rewrite list_lookup_alter_eq. destruct (l !! j); simpl; [now rewrite H|reflexivity].
  - now rewrite list_lookup_alter_ne.
Qed.

Lemma forallb_of_lookup {A} (p : A -> bool) (l : list A) :
  (forall i x, l !! i = Some x -> p x = true) -> forallb p l = true.
Proof.
  intros H. apply forallb_forall. intros x Hx.
  apply list_elem_of_In, list_elem_of_lookup_1 in Hx as [i Hi]. exact (H i x Hi).
Qed.

(** The issues of a list of entries, each reported under the entry's own
    index and on different fields, lie on pairwise different paths. *)
Section IndexedIssues.
Context {A : Type} (k : string) (f : nat -> A -> list Issue).
Hypothesis f_paths :
  forall i x y, In y (f i x) -> exists field, path y = [Key k; Idx i; Key field].
Hypothesis f_nodup : forall i x, NoDup (path <$> f i x).

Lemma indexed_paths_from (l : list A) (n : nat) (y : Issue) :
  In y (concat (imap (fun i => f (n + i)) l)) ->
  exists j field, n <= j /\ path y = [Key k; Idx j; Key field].
Proof using f_paths.
  revert n. induction l as [|x l IH]; intros n Hy; [destruct Hy|].
  simpl in Hy. apply in_app_or in Hy as [Hy|Hy].
  - destruct (f_paths _ _ _ Hy) as [field Hp]. exists (n + 0), field. split; [lia|exact Hp].
  - rewrite (imap_ext _ (fun i => f (S n + i))) in Hy
      by (intros i z _; simpl; f_equal; lia).
    destruct (IH (S n) Hy) as (j & field & Hj & Hp). exists j, field. split; [lia|exact Hp].
Qed.

Lemma indexed_nodup_from (l : list A) (n : nat) :
  NoDup (path <$> concat (imap (fun i => f (n + i)) l)).
Proof using f_paths f_nodup.
  revert n. induction l as [|x l IH]; intros n; [constructor|].
  simpl. rewrite fmap_app. apply NoDup_app. split; [apply f_nodup|]. split.
  - intros p Hp1 Hp2.
    apply list_elem_of_fmap in Hp1 as (y1 & -> & Hy1).
    apply list_elem_of_fmap in Hp2 as (y2 & Heq & Hy2).
    apply list_elem_of_In in Hy1, Hy2.
    destruct (f_paths _ _ _ Hy1) as [f1 Hq1].
    rewrite (imap_ext _ (fun i => f (S n + i))) in Hy2
      by (intros i z _; simpl; f_equal; lia).
    destruct (indexed_paths_from _ _ _ Hy2) as (j & f2 & Hj & Hq2).
    rewrite Hq1, Hq2 in Heq. injection Heq as Hidx _. lia.
  - rewrite (imap_ext _ (fun i => f (S n + i)))
      by (intros i z _; simpl; f_equal; lia).
    apply IH.
Qed.

Lemma indexed_one_issue_per_path (l : list A) :
  toFieldErrors (concat (imap f l)) = concat (imap f l).
Proof using f_paths f_nodup.
  apply toFieldErrors_nodup.
  rewrite (imap_ext f (fun i => f (0 + i))) by reflexivity.
  apply indexed_nodup_from.
Qed.
End IndexedIssues.

Ltac different_paths :=
  simpl;
  repeat (apply NoDup_cons; split;
          [rewrite ?not_elem_of_cons; repeat split;
           first [apply not_elem_of_nil | discriminate]|]);
  apply NoDup_nil_2.

Ltac own_path H :=
  simpl in H;
  repeat match type of H with
         | _ \/ _ => destruct H as [H|H]
         | False => destruct H
         end;
  subst; eexists; reflexivity.

Lemma children_one_issue_per_path (d : Children.FormValues) :
  toFieldErrors (Children.validate d) = Children.validate d.
Proof.
  unfold Children.validate.
  apply (indexed_one_issue_per_path "children"); intros i c.
  - intros y Hy. unfold Children.child_issues in Hy.
    destruct (Children.birthday c), (test Children.ssnRegex (Children.ssn c)),
      (Children.gender c); own_path Hy.
  - unfold Children.child_issues.
    destruct (Children.birthday c), (test Children.ssnRegex (Children.ssn c)),
      (Children.gender c); different_paths.
Qed.

Lemma criminal_one_issue_per_path (d : CriminalHistory.CriminalHistoryFormData) :
  toFieldErrors (CriminalHistory.validate d) = CriminalHistory.validate d.
Proof.
  unfold CriminalHistory.validate.
  destruct (CriminalHistory.offense_details_rendered d); [|reflexivity].
  apply (indexed_one_issue_per_path "charges"); intros i c.
  - intros y Hy. unfold CriminalHistory.charge_rules in Hy.
    destruct (CriminalHistory.personName c), (CriminalHistory.charge c),
      (CriminalHistory.outcome c),
      (bool_decide (CriminalHistory.areTheyOnProbation c = Yes)),
      (CriminalHistory.probationOfficer c); own_path Hy.
  - unfold CriminalHistory.charge_rules.
    destruct (CriminalHistory.personName c), (CriminalHistory.charge c),
      (CriminalHistory.outcome c),
      (bool_decide (CriminalHistory.areTheyOnProbation c = Yes)),
      (CriminalHistory.probationOfficer c); different_paths.
Qed.

Lemma health_one_issue_per_path (d : Health.FormValues) :
  toFieldErrors (Health.validate d) = Health.validate d.
Proof.
  unfold Health.validate.
  apply (indexed_one_issue_per_path "chronicIllnesses"); intros i e.
  - intros y Hy. unfold Health.illness_issues, Health.min1 in Hy.
    destruct (Health.type e), (Health.symptoms e), (Health.doctor e),
      (Health.medication e); own_path Hy.
  - unfold Health.illness_issues, Health.min1.
    destruct (Health.type e), (Health.symptoms e), (Health.doctor e),
      (Health.medication e); different_paths.
Qed.

(** ** Financial information *)

Lemma income_path_free_of_sources (d : Financial.FormValues) (s : Financial.source) :
  issues_at [Key "totalMonthlyIncome"] (Financial.source_issues d s) = [].
Proof.
  unfold Financial.source_issues.
  destruct (Financial.isChecked s d); [|reflexivity].
  destruct (is_blank _); [now destruct s|].
  destruct (negb _); [now destruct s|reflexivity].
Qed.

(** X5.  The total income: it passes exactly when it matches the currency
    expression; left empty it gets both messages, the required one first,
    which is the one shown; otherwise only the format message.  No amount of
    a source is ever reported on the income's path. *)
Theorem income_messages (d : Financial.FormValues) :
  let v := Financial.totalMonthlyIncome d in
  let required_msg := mkIssue [Key "totalMonthlyIncome"] "too_small"
                        (Some "Monthly household income is required.") in
  let format_msg := mkIssue [Key "totalMonthlyIncome"] "invalid_format"
                      (Some "Must be a valid currency format (e.g., 1,500.00)") in
  issues_at [Key "totalMonthlyIncome"] (Financial.validate d) = Financial.income_issues v
  /\ (Financial.income_issues v = [] <-> test Financial.currencyRegex v = true)
  /\ (v = [] -> Financial.income_issues v = [required_msg; format_msg])
  /\ (v <> [] -> test Financial.currencyRegex v = false ->
      Financial.income_issues v = [format_msg]).
Proof.
  intros v required_msg format_msg. split; [|split; [|split]].
  - unfold Financial.validate. fold v. rewrite issues_at_app.
    assert (issues_at [Key "totalMonthlyIncome"] (Financial.superRefine d) = []) as ->.
    { unfold Financial.superRefine, Financial.incomeSources. simpl.
      now rewrite !issues_at_app, !income_path_free_of_sources. }
    rewrite app_nil_r. unfold Financial.income_issues.
    destruct (bool_decide _), (test _ v); reflexivity.
  - unfold Financial.income_issues. split.
    + destruct (test Financial.currencyRegex v); [reflexivity|].
      destruct (bool_decide _); discriminate.
    + intros Ht. rewrite Ht.
      now rewrite bool_decide_eq_true_2 by now apply currency_nonempty.
  - intros ->. reflexivity.
  - intros Hne Ht. unfold Financial.income_issues. rewrite Ht.
    rewrite bool_decide_eq_true_2; [reflexivity|].
    destruct v; [congruence|simpl; lia].
Qed.

Lemma income_messages_witness :
  Financial.income_issues []
  = [mkIssue [Key "totalMonthlyIncome"] "too_small"
       (Some "Monthly household income is required.");
     mkIssue [Key "totalMonthlyIncome"] "invalid_format"
       (Some "Must be a valid currency format (e.g., 1,500.00)")]
  /\ Financial.income_issues (lit "about 2000")
     = [mkIssue [Key "totalMonthlyIncome"] "invalid_format"
          (Some "Must be a valid currency format (e.g., 1,500.00)")].
Proof.
  destruct (income_messages Financial.defaultValues) as (_ & _ & Hempty & _).
  destruct (income_messages
              (Financial.mkFormValues (lit "about 2000") None None None None None None
                 None None None None None None None None None None))
    as (_ & _ & _ & Hformat).
  split; [exact (Hempty eq_refl)|].
  apply Hformat; [discriminate|reflexivity].
Defined.

Lemma financial_source_complete_inv (d : Financial.FormValues) (s : Financial.source) :
  Financial.source_issues d s = [] -> Financial.source_complete d s = true.
Proof.
  unfold Financial.source_complete, Financial.source_issues.
  destruct (Financial.isChecked s d); [|reflexivity].
  destruct (is_blank _); [discriminate|].
  destruct (test _ _); [reflexivity|discriminate].
Qed.

Lemma financial_valid_complete (d : Financial.FormValues) :
  Financial.validate d = [] -> Financial.complete d = true.
Proof.
  intros Hv. unfold Financial.complete. apply andb_true_iff. split.
  - unfold Financial.validate in Hv. apply app_eq_nil in Hv as [Hi _].
    unfold Financial.income_issues in Hi.
    destruct (test Financial.currencyRegex _); [reflexivity|].
    destruct (bool_decide _); discriminate.
  - apply forallb_forall. intros s _. apply financial_source_complete_inv.
    now rewrite <- issues_at_validate, Hv.
Qed.

(** X6.  The financial form reaches its [onSubmit] exactly when the income is
    a currency string and every checked source has a non-blank currency
    amount; otherwise nothing is shown but the errors, which hold on each
    path the first issue the schema reports there. *)
Theorem financial_submit_iff (d : Financial.FormValues) :
  (Financial.validate d = [] <-> Financial.complete d = true)
  /\ (effects (Financial.submit d)
      = [Toast "You submitted the following values:" (Financial.parsed d)]
      <-> Financial.complete d = true)
  /\ (Financial.complete d = false ->
      effects (Financial.submit d) = []
      /\ errors (Financial.submit d) <> []
      /\ (forall p, issues_at p (errors (Financial.submit d))
                    = take 1 (issues_at p (Financial.validate d)))
      /\ Financial.validate d <> []).
Proof.
  assert (Financial.validate d = [] <-> Financial.complete d = true) as Hiff
    by (split; [apply financial_valid_complete | apply financial_complete_valid]).
  split; [exact Hiff|]. split.
  - split.
    + intros He. apply Hiff. unfold Financial.submit, handleSubmit in He.
      destruct (Financial.validate d); [reflexivity|discriminate He].
    + intros Hc. unfold Financial.submit.
      now rewrite handleSubmit_valid by now apply Hiff.
  - intros Hc.
    assert (Financial.validate d <> []) as Hne.
    { intros Hv. apply Hiff in Hv. congruence. }
    unfold Financial.submit. rewrite handleSubmit_invalid by exact Hne. simpl.
    split; [reflexivity|]. split; [now apply toFieldErrors_nonempty|].
    split; [|exact Hne]. intros p. apply issues_at_toFieldErrors.
Qed.

Lemma financial_submit_iff_witness :
  effects (Financial.submit Financial.defaultValues) = []
  /\ errors (Financial.submit Financial.defaultValues) <> []
  /\ (forall p, issues_at p (errors (Financial.submit Financial.defaultValues))
                = take 1 (issues_at p (Financial.validate Financial.defaultValues)))
  /\ Financial.validate Financial.defaultValues <> [].
Proof.
  destruct (financial_submit_iff Financial.defaultValues) as (_ & _ & H).
  exact (H eq_refl).
Defined.

(** X7.  For each of the eight income sources, the only thing ever reported
    on its amount is decided by that source alone: nothing when its box is
    not checked; when it is checked, the required message naming the source's
    label for a blank amount, the format message for an amount that is not a
    currency string, and nothing for one that is.  A reported amount blocks
    the submit. *)
Theorem source_amount_messages (d : Financial.FormValues) (s : Financial.source) :
  let reported := issues_at [Key (Financial.name s +:+ "_amount")] (Financial.validate d) in
  (Financial.isChecked s d = false -> reported = [])
  /\ (Financial.isChecked s d = true ->
      is_blank (Financial.amount_of s d) = true ->
      reported = [mkIssue [Key (Financial.name s +:+ "_amount")] "custom"
                    (Some ("Amount for " +:+ Financial.label s +:+ " is required."))]
      /\ effects (Financial.submit d) = [])
  /\ (Financial.isChecked s d = true ->
      forall a, Financial.amount_of s d = Some a ->
      is_blank (Some a) = false ->
      (test Financial.currencyRegex a = false ->
       reported = [mkIssue [Key (Financial.name s +:+ "_amount")] "custom"
                     (Some "Must be a valid currency amount.")]
       /\ effects (Financial.submit d) = [])
      /\ (test Financial.currencyRegex a = true -> reported = [])).
Proof.
  intros reported. subst reported.
  change [Key (Financial.name s +:+ "_amount")] with (Financial.amount_path s).
  rewrite issues_at_validate.
  split; [|split].
  - intros Hc. unfold Financial.source_issues. now rewrite Hc.
  - intros Hc Hb. split.
    + unfold Financial.source_issues. now rewrite Hc, Hb.
    + rewrite (source_issue_blocks d s); [reflexivity|].
      unfold Financial.source_issues. now rewrite Hc, Hb.
  - intros Hc a Ha Hb. split.
    + intros Ht. split.
      * unfold Financial.source_issues. rewrite Hc, Ha, Hb. simpl. now rewrite Ht.
      * rewrite (source_issue_blocks d s); [reflexivity|].
        unfold Financial.source_issues. rewrite Hc, Ha, Hb. simpl. now rewrite Ht.
    + intros Ht. unfold Financial.source_issues. rewrite Hc, Ha, Hb. simpl.
      now rewrite Ht.
Qed.

Lemma source_amount_messages_witness :
  issues_at [Key "alimony_amount"] (Financial.validate (sample_family_help None)) = []
  /\ (issues_at [Key "helpFromFamilyFriends_amount"]
        (Financial.validate (sample_family_help None))
      = [mkIssue [Key "helpFromFamilyFriends_amount"] "custom"
           (Some "Amount for help from family/friends is required.")]
      /\ effects (Financial.submit (sample_family_help None)) = [])
  /\ (issues_at [Key "helpFromFamilyFriends_amount"]
        (Financial.validate (sample_family_help (Some (lit "a lot"))))
      = [mkIssue [Key "helpFromFamilyFriends_amount"] "custom"
           (Some "Must be a valid currency amount.")]
      /\ effects (Financial.submit (sample_family_help (Some (lit "a lot")))) = [])
  /\ issues_at [Key "helpFromFamilyFriends_amount"]
       (Financial.validate (sample_family_help (Some (lit "250")))) = [].
Proof.
  destruct (source_amount_messages (sample_family_help None) Financial.alimony)
    as (H0 & _ & _).
  destruct (source_amount_messages (sample_family_help None)
              Financial.helpFromFamilyFriends) as (_ & H1 & _).
  destruct (source_amount_messages (sample_family_help (Some (lit "a lot")))
              Financial.helpFromFamilyFriends) as (_ & _ & H2).
  destruct (source_amount_messages (sample_family_help (Some (lit "250")))
              Financial.helpFromFamilyFriends) as (_ & _ & H3).
  split; [exact (H0 eq_refl)|].
  split; [exact (H1 eq_refl eq_refl)|].
  split; [exact (proj1 (H2 eq_refl (lit "a lot") eq_refl eq_refl) eq_refl)|].
  exact (proj2 (H3 eq_refl (lit "250") eq_refl eq_refl) eq_refl).
Defined.

(** ** Substance use history *)

Lemma substance_valid_complete (d : SubstanceUse.SubstanceUseHistoryFormData) :
  SubstanceUse.validate d = [] -> SubstanceUse.complete d = true.
Proof.
  unfold SubstanceUse.validate, SubstanceUse.complete, SubstanceUse.when_blank.
  destruct (bool_decide (SubstanceUse.hasSubstanceHistory d = Yes)),
    (bool_decide (SubstanceUse.hasInpatientTreatment d = Yes)),
    (bool_decide (SubstanceUse.isCleanAndSober d = Yes)),
    (is_blank (SubstanceUse.substances d)), (is_blank (SubstanceUse.lastUseMonth d)),
    (is_blank (SubstanceUse.lastUseYear d)), (is_blank (SubstanceUse.inpatientDetails d)),
    (is_blank (SubstanceUse.sobrietyPlan d));
    simpl; intros H; first [reflexivity | discriminate H].
Qed.

Lemma substance_one_issue_per_path (d : SubstanceUse.SubstanceUseHistoryFormData) :
  toFieldErrors (SubstanceUse.validate d) = SubstanceUse.validate d.
Proof.
  unfold SubstanceUse.validate, SubstanceUse.when_blank, SubstanceUse.custom.
  generalize "Please list the substance(s)."%string, "Month is required."%string,
    "Year is required."%string,
    "Please provide when and where treatment occurred."%string,
    "Please describe your plan to stay clean and sober."%string.
  intros m1 m2 m3 m4 m5.
  generalize (bool_decide (SubstanceUse.hasSubstanceHistory d = Yes)),
    (bool_decide (SubstanceUse.hasInpatientTreatment d = Yes)),
    (bool_decide (SubstanceUse.isCleanAndSober d = Yes)),
    (is_blank (SubstanceUse.substances d)), (is_blank (SubstanceUse.lastUseMonth d)),
    (is_blank (SubstanceUse.lastUseYear d)), (is_blank (SubstanceUse.inpatientDetails d)),
    (is_blank (SubstanceUse.sobrietyPlan d)).
  intros [] [] [] [] [] [] [] []; reflexivity.
Qed.

(** X8.  The substance-use form reaches its [onSubmit] exactly when the
    details of every affirmative answer are not blank: the substances, month
    and year under a history, the treatment details under in-patient
    treatment, the plan under being clean and sober.  Otherwise the submit
    shows nothing but the errors. *)
Theorem substance_submit_iff (d : SubstanceUse.SubstanceUseHistoryFormData) :
  (SubstanceUse.validate d = [] <-> SubstanceUse.complete d = true)
  /\ (effects (SubstanceUse.submit d) = [Toast "You submitted the following values:" d]
      <-> SubstanceUse.complete d = true)
  /\ (SubstanceUse.complete d = false ->
      effects (SubstanceUse.submit d) = []
      /\ errors (SubstanceUse.submit d) = SubstanceUse.validate d
      /\ SubstanceUse.validate d <> []).
Proof.
  assert (SubstanceUse.validate d = [] <-> SubstanceUse.complete d = true) as Hiff
    by (split; [apply substance_valid_complete | apply substance_complete_valid]).
  split; [exact Hiff|]. split.
  - split.
    + intros He. apply Hiff. unfold SubstanceUse.submit, handleSubmit in He.
      destruct (SubstanceUse.validate d); [reflexivity|discriminate He].
    + intros Hc. unfold SubstanceUse.submit.
      now rewrite handleSubmit_valid by now apply Hiff.
  - intros Hc.
    assert (SubstanceUse.validate d <> []) as Hne.
    { intros Hv. apply Hiff in Hv. congruence. }
    unfold SubstanceUse.submit. rewrite handleSubmit_invalid by exact Hne.
    rewrite substance_one_issue_per_path. now repeat split.
Qed.

Lemma substance_submit_iff_witness :
  let d := SubstanceUse.set_hasSubstanceHistory Yes SubstanceUse.defaultValues in
  effects (SubstanceUse.submit d) = []
  /\ errors (SubstanceUse.submit d) = SubstanceUse.validate d
  /\ SubstanceUse.validate d <> [].
Proof.
  destruct (substance_submit_iff
              (SubstanceUse.set_hasSubstanceHistory Yes SubstanceUse.defaultValues))
    as (_ & _ & H).
  exact (H eq_refl).
Defined.

(** X9.  What is reported on each conditional text of the substance-use
    form: its own message when its governing answer is Yes and the text is
    blank, and nothing otherwise, whatever the rest of the form holds. *)
Theorem substance_messages (d : SubstanceUse.SubstanceUseHistoryFormData) :
  let reported field := issues_at [Key field] (SubstanceUse.validate d) in
  let message_if (b : bool) field msg :=
    if b then [mkIssue [Key field] "custom" (Some msg)] else [] in
  let history := bool_decide (SubstanceUse.hasSubstanceHistory d = Yes) in
  reported "substances"
  = message_if (history && is_blank (SubstanceUse.substances d))
      "substances" "Please list the substance(s)."
  /\ reported "lastUseMonth"
     = message_if (history && is_blank (SubstanceUse.lastUseMonth d))
         "lastUseMonth" "Month is required."
  /\ reported "lastUseYear"
     = message_if (history && is_blank (SubstanceUse.lastUseYear d))
         "lastUseYear" "Year is required."
  /\ reported "inpatientDetails"
     = message_if (bool_decide (SubstanceUse.hasInpatientTreatment d = Yes)
                   && is_blank (SubstanceUse.inpatientDetails d))
         "inpatientDetails" "Please provide when and where treatment occurred."
  /\ reported "sobrietyPlan"
     = message_if (bool_decide (SubstanceUse.isCleanAndSober d = Yes)
                   && is_blank (SubstanceUse.sobrietyPlan d))
         "sobrietyPlan" "Please describe your plan to stay clean and sober."
  /\ reported "hasSponsor" = [].
Proof.
  unfold SubstanceUse.validate, SubstanceUse.when_blank, SubstanceUse.custom.
  generalize "Please list the substance(s)."%string, "Month is required."%string,
    "Year is required."%string,
    "Please provide when and where treatment occurred."%string,
    "Please describe your plan to stay clean and sober."%string.
  intros m1 m2 m3 m4 m5.
  generalize (bool_decide (SubstanceUse.hasSubstanceHistory d = Yes)),
    (bool_decide (SubstanceUse.hasInpatientTreatment d = Yes)),
    (bool_decide (SubstanceUse.isCleanAndSober d = Yes)),
    (is_blank (SubstanceUse.substances d)), (is_blank (SubstanceUse.lastUseMonth d)),
    (is_blank (SubstanceUse.lastUseYear d)), (is_blank (SubstanceUse.inpatientDetails d)),
    (is_blank (SubstanceUse.sobrietyPlan d)).
  intros [] [] [] [] [] [] [] []; repeat split.
Qed.

(** X10.  The year of last use is only asked not to be blank: the length
    limits given to its input are not applied, so replacing one non-blank
    year by any other, of any length, leaves the outcome of validation as it
    was.  The sponsor answer plays no part in validation. *)
Theorem year_and_sponsor_unchecked (d : SubstanceUse.SubstanceUseHistoryFormData)
    (y : js_string) (v : YesNo) :
  (is_blank (SubstanceUse.lastUseYear d) = false -> is_blank (Some y) = false ->
   SubstanceUse.validate (SubstanceUse.set_lastUseYear y d) = SubstanceUse.validate d)
  /\ SubstanceUse.validate (SubstanceUse.set_hasSponsor v d) = SubstanceUse.validate d.
Proof.
  split; [|reflexivity].
  intros Hd Hy. unfold SubstanceUse.validate, SubstanceUse.set_lastUseYear. simpl.
  unfold SubstanceUse.when_blank at 3 8. now rewrite Hd, Hy.
Qed.

Lemma year_and_sponsor_unchecked_witness :
  let d := SubstanceUse.mkFormData Yes (Some (lit "Alcohol")) (Some (lit "May"))
             (Some (lit "2023")) No None No None No in
  SubstanceUse.validate (SubstanceUse.set_lastUseYear (lit "23") d)
  = SubstanceUse.validate d.
Proof.
  apply (year_and_sponsor_unchecked
           (SubstanceUse.mkFormData Yes (Some (lit "Alcohol")) (Some (lit "May"))
              (Some (lit "2023")) No None No None No) (lit "23") No);
    reflexivity.
Defined.

(** ** Children *)

Lemma child_issues_complete (i : nat) (c : Children.Child) :
  Children.child_issues i c = [] <-> Children.child_complete c = true.
Proof.
  unfold Children.child_issues, Children.child_complete.
  destruct (Children.birthday c), (test Children.ssnRegex (Children.ssn c)),
    (Children.gender c); simpl; split; intros H;
    first [reflexivity | discriminate H].
Qed.

Lemma children_valid_iff (d : Children.FormValues) :
  Children.validate d = [] <-> Children.complete d = true.
Proof.
  split; [|apply children_complete_valid].
  intros Hv. apply forallb_of_lookup. intros i c Hi.
  apply (child_issues_complete i).
  exact (concat_imap_nil_inv _ _ Hv i c Hi).
Qed.

(** X11.  The children form reaches its [onSubmit] exactly when every child
    has a valid birthday, a social security number in the format and a
    non-empty gender; with no child at all it always does.  Otherwise the
    submit shows nothing but the errors. *)
Theorem children_submit_iff (d : Children.FormValues) :
  (effects (Children.submit d) = [Toast "You submitted the following values:" d]
   <-> Children.complete d = true)
  /\ (Children.children d = [] ->
      effects (Children.submit d) = [Toast "You submitted the following values:" d])
  /\ (Children.complete d = false ->
      effects (Children.submit d) = []
      /\ errors (Children.submit d) = Children.validate d
      /\ Children.validate d <> []).
Proof.
  pose proof (children_valid_iff d) as Hiff.
  assert (Children.complete d = true ->
          effects (Children.submit d) = [Toast "You submitted the following values:" d])
    as Hok.
  { intros Hc. unfold Children.submit.
    now rewrite handleSubmit_valid by now apply Hiff. }
  split; [|split].
  - split; [|exact Hok].
    intros He. apply Hiff. unfold Children.submit, handleSubmit in He.
    destruct (Children.validate d); [reflexivity|discriminate He].
  - intros Hnil. apply Hok. unfold Children.complete. now rewrite Hnil.
  - intros Hc.
    assert (Children.validate d <> []) as Hne.
    { intros Hv. apply Hiff in Hv. congruence. }
    unfold Children.submit. rewrite handleSubmit_invalid by exact Hne.
    rewrite children_one_issue_per_path. now repeat split.
Qed.

Lemma children_submit_iff_witness :
  effects (Children.submit Children.defaultValues)
  = [Toast "You submitted the following values:" Children.defaultValues]
  /\ (effects (Children.submit (Children.mkFormValues [Children.newChild])) = []
      /\ errors (Children.submit (Children.mkFormValues [Children.newChild]))
         = Children.validate (Children.mkFormValues [Children.newChild])
      /\ Children.validate (Children.mkFormValues [Children.newChild]) <> []).
Proof.
  destruct (children_submit_iff Children.defaultValues) as (_ & Hnil & _).
  destruct (children_submit_iff (Children.mkFormValues [Children.newChild]))
    as (_ & _ & Hbad).
  exact (conj (Hnil eq_refl) (Hbad eq_refl)).
Defined.

(** X12.  The name and the race of a child are never validated: whatever is
    typed into either, also nothing at all, the issues reported for the form
    stay the same. *)
Theorem name_and_race_unchecked (st : Children.State) (i : nat) (v : js_string) :
  Children.validate (Children.values (Children.handle
                                        (Children.EditChild i (Children.Name v)) st))
  = Children.validate (Children.values st)
  /\ Children.validate (Children.values (Children.handle
                                           (Children.EditChild i (Children.Race v)) st))
     = Children.validate (Children.values st).
Proof.
  unfold Children.validate. simpl.
  split; f_equal; apply imap_alter_same; intros j [n b s g r l]; reflexivity.
Qed.

(** X13.  A child just added cannot be saved as it is: when the Add Child
    button is enabled, after a click the issues are those of before followed
    by three for the new entry, on its birthday, its social security number
    and its gender, and the submit is blocked. *)
Theorem new_child_blocks_save (st : Children.State) :
  Children.add_disabled st = false ->
  let n := length (Children.children (Children.values st)) in
  let st' := Children.step Children.ClickAddChild st in
  Children.children (Children.values st')
  = Children.children (Children.values st) ++ [Children.newChild]
  /\ Children.validate (Children.values st')
     = Children.validate (Children.values st)
       ++ [mkIssue [Key "children"; Idx n; Key "birthday"] "invalid_type" None;
           mkIssue [Key "children"; Idx n; Key "ssn"] "invalid_format" None;
           mkIssue [Key "children"; Idx n; Key "gender"] "too_small" None]
  /\ effects (Children.submit (Children.values st')) = [].
Proof.
  intros Hd n st'.
  assert (Children.values st'
          = Children.mkFormValues
              (Children.children (Children.values st) ++ [Children.newChild])) as Hv.
  { subst st'. unfold Children.step. simpl. now rewrite Hd. }
  assert (Children.validate (Children.values st')
          = Children.validate (Children.values st)
            ++ [mkIssue [Key "children"; Idx n; Key "birthday"] "invalid_type" None;
                mkIssue [Key "children"; Idx n; Key "ssn"] "invalid_format" None;
                mkIssue [Key "children"; Idx n; Key "gender"] "too_small" None]) as Hval.
  { rewrite Hv. unfold Children.validate. simpl. now rewrite concat_imap_snoc. }
  split; [now rewrite Hv|]. split; [exact Hval|].
  unfold Children.submit. rewrite handleSubmit_invalid; [reflexivity|].
  rewrite Hval. intros H. apply app_eq_nil in H as [_ H]. discriminate H.
Qed.

Lemma new_child_blocks_save_witness :
  let st' := Children.step Children.ClickAddChild Children.mount in
  Children.children (Children.values st') = [Children.newChild]
  /\ Children.validate (Children.values st')
     = [mkIssue [Key "children"; Idx 0; Key "birthday"] "invalid_type" None;
        mkIssue [Key "children"; Idx 0; Key "ssn"] "invalid_format" None;
        mkIssue [Key "children"; Idx 0; Key "gender"] "too_small" None]
  /\ effects (Children.submit (Children.values st')) = [].
Proof.
  exact (new_child_blocks_save Children.mount eq_refl).
Defined.

Lemma children_step_living (a : Children.Action) (st : Children.State) :
  Forall (fun c => Children.living c = false) (Children.children (Children.values st)) ->
  Forall (fun c => Children.living c = false)
         (Children.children (Children.values (Children.step a st))).
Proof.
  intros H. unfold Children.step. destruct (Children.available a st); [|exact H].
  destruct a as [|i f|]; simpl.
  - apply Forall_app. split; [exact H|]. now constructor.
  - apply Forall_lookup. intros j c Hj.
    destruct (decide (i = j)) as [->|Hne].
    + rewrite list_lookup_alter_eq in Hj.
      destruct (Children.children (Children.values st) !! j) as [c0|] eqn:Hc0;
        [|discriminate Hj].
      injection Hj as <-. rewrite Forall_lookup in H. specialize (H j c0 Hc0).
      destruct c0, f; exact H.
    + rewrite list_lookup_alter_ne in Hj by exact Hne.
      rewrite Forall_lookup in H. exact (H j c Hj).
  - constructor.
Qed.

(** X14.  The question whether a child lives with the applicant is never
    recorded: its radio group is not bound to the form, so in every state the
    children page can reach, every child's [living] is the default, false. *)
Theorem living_is_never_recorded (acts : list Children.Action) :
  Forall (fun c => Children.living c = false)
         (Children.children (Children.values (Children.run acts Children.mount))).
Proof.
  apply (run_actions_preserves Children.step
           (fun s => Forall (fun c => Children.living c = false)
                            (Children.children (Children.values s)))).
  - intros a s. apply children_step_living.
  - constructor.
Qed.



(** ** Criminal history *)

Lemma in_concat_imap {A B} (f : nat -> A -> list B) (l : list A) i x y :
  l !! i = Some x -> In y (f i x) -> In y (concat (imap f l)).
Proof.
  revert f i. induction l as [|z l IH]; intros f i Hi Hy; [discriminate|].
  simpl. apply in_or_app. destruct i as [|i]; simpl in Hi.
  - left. now injection Hi as ->.
  - right. exact (IH (fun n => f (S n)) i Hi Hy).
Qed.

Lemma charge_rules_complete (i : nat) (c : CriminalHistory.CriminalCharge) :
  CriminalHistory.charge_rules i c = [] <-> CriminalHistory.charge_complete c = true.
Proof.
  unfold CriminalHistory.charge_rules, CriminalHistory.charge_complete.
  destruct (CriminalHistory.personName c), (CriminalHistory.charge c),
    (CriminalHistory.outcome c), (bool_decide (CriminalHistory.areTheyOnProbation c = Yes)),
    (CriminalHistory.probationOfficer c); simpl; split; intros H;
    first [reflexivity | discriminate H].
Qed.

Lemma criminal_valid_iff (d : CriminalHistory.CriminalHistoryFormData) :
  CriminalHistory.validate d = []
  <-> CriminalHistory.hasCriminalOffense d = No
      \/ forallb CriminalHistory.charge_complete (CriminalHistory.charges d) = true.
Proof.
  unfold CriminalHistory.validate, CriminalHistory.offense_details_rendered.
  destruct (CriminalHistory.hasCriminalOffense d); simpl.
  - split.
    + intros Hv. right. apply forallb_of_lookup. intros i c Hi.
      apply (charge_rules_complete i). exact (concat_imap_nil_inv _ _ Hv i c Hi).
    + intros [H|H]; [discriminate|].
      apply concat_imap_nil. intros i c Hi. apply charge_rules_complete.
      exact (forallb_lookup _ _ _ _ H Hi).
  - split; [now left|reflexivity].
Qed.

(** X16.  A submit of the criminal-history form has one of three outcomes and
    no other: errors under the inputs and no call; the alert; or
    [updateData] with the form values followed by [nextStep].  The last
    happens exactly when the form is complete, the alert exactly when the
    answer is Yes and the list is empty, and [prevStep] is never called. *)
Theorem criminal_submit_outcomes (d : CriminalHistory.CriminalHistoryFormData) :
  let out := effects (CriminalHistory.submit d) in
  (out = [] \/ out = [Alert CriminalHistory.alert_message]
   \/ out = [UpdateData d; NextStep])
  /\ (out = [UpdateData d; NextStep] <-> CriminalHistory.complete d = true)
  /\ (out = [Alert CriminalHistory.alert_message]
      <-> CriminalHistory.hasCriminalOffense d = Yes /\ CriminalHistory.charges d = [])
  /\ (out = [] <-> CriminalHistory.validate d <> [])
  /\ ~ In PrevStep out.
Proof.
  intros out.
  pose proof (criminal_valid_iff d) as Hv.
  assert ((CriminalHistory.validate d <> [] /\ out = []
           /\ CriminalHistory.complete d = false
           /\ CriminalHistory.charges d <> [])
          \/ (CriminalHistory.validate d = [] /\ out = [Alert CriminalHistory.alert_message]
              /\ CriminalHistory.complete d = false
              /\ CriminalHistory.hasCriminalOffense d = Yes
              /\ CriminalHistory.charges d = [])
          \/ (CriminalHistory.validate d = [] /\ out = [UpdateData d; NextStep]
              /\ CriminalHistory.complete d = true
              /\ ~ (CriminalHistory.hasCriminalOffense d = Yes
                    /\ CriminalHistory.charges d = []))) as Hcases.
  { subst out. unfold CriminalHistory.submit, handleSubmit.
    unfold CriminalHistory.complete, CriminalHistory.onSubmit.
    destruct (CriminalHistory.validate d) as [|e es] eqn:Hval.
    - right. destruct (CriminalHistory.hasCriminalOffense d) eqn:Hy.
      + destruct (proj1 Hv eq_refl) as [H|Hall]; [discriminate|].
        destruct (CriminalHistory.charges d) as [|c cs] eqn:Hc.
        * left. repeat split.
        * right. simpl in *. rewrite Hall. repeat split. intros [_ H]. discriminate H.
      + right. repeat split. intros [H _]. discriminate H.
    - left. split; [discriminate|]. split; [reflexivity|].
      destruct (CriminalHistory.hasCriminalOffense d) eqn:Hy.
      + assert (forallb CriminalHistory.charge_complete (CriminalHistory.charges d) = false)
          as Hall.
        { apply not_true_is_false. intros H.
          assert (e :: es = []) as H' by (apply Hv; now right). discriminate H'. }
        rewrite Hall, andb_false_r. split; [reflexivity|].
        intros Hc. rewrite Hc in Hall. discriminate Hall.
      + assert (e :: es = []) as H by (apply Hv; now left). discriminate H. }
  destruct Hcases as [(Hn & Ho & Hc & Hl)|[(Hn & Ho & Hc & Hy & Hl)|(Hn & Ho & Hc & Hl)]];
    rewrite Ho, Hc.
  - split; [now left|]. split; [split; discriminate|].
    split; [split; [discriminate|intros [_ H]; contradiction]|].
    split; [tauto|]. intros [].
  - split; [right; now left|]. split; [split; discriminate|].
    split; [tauto|]. split; [split; [discriminate|congruence]|].
    intros [H|[]]. discriminate H.
  - split; [right; now right|]. split; [tauto|].
    split; [split; [discriminate|intros H; contradiction]|].
    split; [split; [discriminate|congruence]|].
    intros [H|[H|[]]]; discriminate H.
Qed.

(** X17.  A charge on screen with an empty required text blocks the submit
    and is reported under that input with its own message: the person's
    name, the charge, the outcome, and, only while the charge is on
    probation, the probation officer. *)
Theorem charge_field_errors (d : CriminalHistory.CriminalHistoryFormData)
    (i : nat) (c : CriminalHistory.CriminalCharge) :
  CriminalHistory.hasCriminalOffense d = Yes ->
  CriminalHistory.charges d !! i = Some c ->
  let reported field msg :=
    In (mkIssue [Key "charges"; Idx i; Key field] "required" (Some msg))
       (errors (CriminalHistory.submit d))
    /\ effects (CriminalHistory.submit d) = [] in
  (CriminalHistory.personName c = [] -> reported "personName" "Person Name is required.")
  /\ (CriminalHistory.charge c = [] -> reported "charge" "Charge is required.")
  /\ (CriminalHistory.outcome c = [] -> reported "outcome" "Outcome is required.")
  /\ (CriminalHistory.areTheyOnProbation c = Yes ->
      CriminalHistory.probationOfficer c = [] ->
      reported "probationOfficer" "Probation Officer is required.").
Proof.
  intros Hy Hi reported.
  assert (forall y, In y (CriminalHistory.charge_rules i c) ->
                    In y (errors (CriminalHistory.submit d))
                    /\ effects (CriminalHistory.submit d) = []) as Hrep.
  { intros y Hin.
    assert (In y (CriminalHistory.validate d)) as Hv.
    { unfold CriminalHistory.validate, CriminalHistory.offense_details_rendered.
      rewrite Hy. simpl. exact (in_concat_imap _ _ _ _ _ Hi Hin). }
    unfold CriminalHistory.submit.
    rewrite handleSubmit_invalid; [rewrite criminal_one_issue_per_path; now split|].
    intros Hnil. rewrite Hnil in Hv. destruct Hv. }
  subst reported. unfold CriminalHistory.charge_rules in Hrep.
  split; [|split; [|split]].
  - intros H. apply Hrep. rewrite H. simpl. now left.
  - intros H. apply Hrep. rewrite H. apply in_or_app. right. simpl. now left.
  - intros H. apply Hrep. rewrite H.
    apply in_or_app. right. apply in_or_app. right. simpl. now left.
  - intros Hp H. apply Hrep. rewrite Hp, H.
    apply in_or_app. right. apply in_or_app. right. apply in_or_app. right.
    simpl. now left.
Qed.

Lemma charge_field_errors_witness :
  let d := sample_blank_charge_form in
  let reported field msg :=
    In (mkIssue [Key "charges"; Idx 1; Key field] "required" (Some msg))
       (errors (CriminalHistory.submit d))
    /\ effects (CriminalHistory.submit d) = [] in
  reported "personName" "Person Name is required."
  /\ reported "charge" "Charge is required."
  /\ reported "outcome" "Outcome is required."
  /\ reported "probationOfficer" "Probation Officer is required.".
Proof.
  destruct (charge_field_errors sample_blank_charge_form 1
              (CriminalHistory.mkCharge [] [] [] [] Yes [] [] [] []) eq_refl eq_refl)
    as (H1 & H2 & H3 & H4).
  exact (conj (H1 eq_refl) (conj (H2 eq_refl) (conj (H3 eq_refl) (H4 eq_refl eq_refl)))).
Defined.

(** X18.  With the answer No the submit always goes through, whatever the
    list holds: charges entered before the answer was changed are not
    validated, and they are handed to the host with the rest. *)
Theorem answer_no_submits_leftover_charges (d : CriminalHistory.CriminalHistoryFormData) :
  CriminalHistory.hasCriminalOffense d = No ->
  CriminalHistory.submit d = mkSubmitted d [] [UpdateData d; NextStep].
Proof.
  intros Hn. unfold CriminalHistory.submit. rewrite handleSubmit_valid.
  - unfold CriminalHistory.onSubmit. now rewrite Hn.
  - apply criminal_valid_iff. now left.
Qed.

Lemma answer_no_submits_leftover_charges_witness :
  let d := CriminalHistory.mkFormData No [CriminalHistory.initialCharge] No in
  CriminalHistory.submit d = mkSubmitted d [] [UpdateData d; NextStep].
Proof.
  exact (answer_no_submits_leftover_charges
           (CriminalHistory.mkFormData No [CriminalHistory.initialCharge] No) eq_refl).
Defined.

Lemma criminal_complete_submit (d : CriminalHistory.CriminalHistoryFormData) :
  CriminalHistory.complete d = true ->
  CriminalHistory.submit d = mkSubmitted d [] [UpdateData d; NextStep].
Proof.
  intros Hc. unfold CriminalHistory.submit.
  rewrite handleSubmit_valid by now apply criminal_complete_valid.
  f_equal. unfold CriminalHistory.onSubmit. unfold CriminalHistory.complete in Hc.
  destruct (CriminalHistory.hasCriminalOffense d); [|reflexivity].
  destruct (CriminalHistory.charges d); [discriminate|reflexivity].
Qed.

(** X19.  What the host supplies comes back unchanged: mounted on a slice
    with all three fields, the form holds exactly them, and when they are
    complete an immediate submit calls [updateData] with the same values.
    Fields the host leaves out start as No, the empty list and No, which is a
    complete form. *)
Theorem host_slice_round_trip (y w : YesNo) (cs : list CriminalHistory.CriminalCharge) :
  let d := CriminalHistory.mkFormData y cs w in
  let st := CriminalHistory.mount (CriminalHistory.mkProps (Some y) (Some cs) (Some w)) in
  CriminalHistory.values st = d
  /\ (CriminalHistory.complete d = true ->
      effects (CriminalHistory.submit (CriminalHistory.values st))
      = [UpdateData d; NextStep])
  /\ effects (CriminalHistory.submit
                (CriminalHistory.values
                   (CriminalHistory.mount (CriminalHistory.mkProps None None None))))
     = [UpdateData (CriminalHistory.mkFormData No [] No); NextStep].
Proof.
  intros d st. split; [reflexivity|]. split; [|reflexivity].
  intros Hc. subst st. simpl CriminalHistory.values. fold d.
  now rewrite criminal_complete_submit.
Qed.

Lemma host_slice_round_trip_witness :
  effects (CriminalHistory.submit
             (CriminalHistory.values
                (CriminalHistory.mount
                   (CriminalHistory.mkProps (Some Yes) (Some [sample_charge]) (Some Yes)))))
  = [UpdateData sample_criminal; NextStep].
Proof.
  destruct (host_slice_round_trip Yes Yes [sample_charge]) as (_ & H & _).
  exact (H eq_refl).
Defined.

Lemma headings_seq {E} (l : list E) : headings l = seq 1 (length l).
Proof.
  apply list_eq. intros i. unfold headings. rewrite list_lookup_imap.
  destruct (decide (i < length l)) as [Hi|Hi].
  - destruct (lookup_lt_is_Some_2 l i Hi) as [x ->]. simpl.
    rewrite lookup_seq_lt by exact Hi. f_equal. lia.
  - rewrite (lookup_ge_None_2 l i) by lia. simpl.
    symmetry. apply lookup_seq_ge. lia.
Qed.

(** X20.  The Remove button of the charge at position [i] deletes exactly
    that charge: the charges before it stay where they are, those after it
    move up by one together with their keys, and the headings are renumbered
    from 1 without a gap. *)
Theorem remove_charge_shifts (st : CriminalHistory.State) (i j : nat) :
  CriminalHistory.offense_details_rendered (CriminalHistory.values st) = true ->
  i < length (CriminalHistory.charges (CriminalHistory.values st)) ->
  let l := CriminalHistory.charges (CriminalHistory.values st) in
  let st' := CriminalHistory.step (CriminalHistory.ClickRemoveCharge i) st in
  let l' := CriminalHistory.charges (CriminalHistory.values st') in
  length l' = length l - 1
  /\ (j < i -> l' !! j = l !! j
               /\ ids (CriminalHistory.keys st') !! j = ids (CriminalHistory.keys st) !! j)
  /\ (i <= j -> l' !! j = l !! (S j)
                /\ ids (CriminalHistory.keys st') !! j
                   = ids (CriminalHistory.keys st) !! (S j))
  /\ headings l' = seq 1 (length l - 1)
  /\ CriminalHistory.hasCriminalOffense (CriminalHistory.values st')
     = CriminalHistory.hasCriminalOffense (CriminalHistory.values st).
Proof.
  intros Hr Hi l st' l'.
  assert (st' = CriminalHistory.handle (CriminalHistory.ClickRemoveCharge i) st) as Hst.
  { subst st'. unfold CriminalHistory.step. simpl. rewrite Hr.
    now rewrite bool_decide_eq_true_2 by exact Hi. }
  assert (length l' = length l - 1) as Hlen.
  { subst l'. rewrite Hst. simpl. apply length_delete. now apply lookup_lt_is_Some_2. }
  split; [exact Hlen|]. subst l'. rewrite Hst. simpl. unfold remove.
  split; [|split; [|split]].
  - intros Hj. now rewrite !list_lookup_delete_lt by exact Hj.
  - intros Hj. now rewrite !list_lookup_delete_ge by exact Hj.
  - rewrite headings_seq. f_equal. rewrite Hst in Hlen. exact Hlen.
  - reflexivity.
Qed.

Lemma remove_charge_shifts_witness :
  let st := CriminalHistory.mkState
              (CriminalHistory.mkFormData Yes
                 [sample_charge; CriminalHistory.initialCharge] No)
              (mkKeys [7; 9] 10) in
  let st' := CriminalHistory.step (CriminalHistory.ClickRemoveCharge 0) st in
  CriminalHistory.charges (CriminalHistory.values st') !! 0
  = Some CriminalHistory.initialCharge
  /\ ids (CriminalHistory.keys st') !! 0 = Some 9
  /\ headings (CriminalHistory.charges (CriminalHistory.values st')) = [1].
Proof.
  destruct (remove_charge_shifts
              (CriminalHistory.mkState
                 (CriminalHistory.mkFormData Yes
                    [sample_charge; CriminalHistory.initialCharge] No)
                 (mkKeys [7; 9] 10)) 0 0 eq_refl ltac:(simpl; lia))
    as (_ & _ & Hge & Hh & _).
  destruct (Hge (Nat.le_refl 0)) as (Hc & Hk).
  exact (conj Hc (conj Hk Hh)).
Defined.

(** X21.  A charge just added cannot be submitted as it is: after a click on
    Add Offense the new entry is the last one, it holds the empty template
    with the probation answer No, and the issues are those of before
    followed by exactly three for it, on the name, the charge and the
    outcome, none on a probation text; the submit makes no call. *)
Theorem new_charge_blocks_submit (st : CriminalHistory.State) :
  CriminalHistory.offense_details_rendered (CriminalHistory.values st) = true ->
  let n := length (CriminalHistory.charges (CriminalHistory.values st)) in
  let st' := CriminalHistory.step CriminalHistory.ClickAddOffense st in
  CriminalHistory.charges (CriminalHistory.values st')
  = CriminalHistory.charges (CriminalHistory.values st) ++ [CriminalHistory.initialCharge]
  /\ CriminalHistory.validate (CriminalHistory.values st')
     = CriminalHistory.validate (CriminalHistory.values st)
       ++ [mkIssue [Key "charges"; Idx n; Key "personName"] "required"
             (Some "Person Name is required.");
           mkIssue [Key "charges"; Idx n; Key "charge"] "required"
             (Some "Charge is required.");
           mkIssue [Key "charges"; Idx n; Key "outcome"] "required"
             (Some "Outcome is required.")]
  /\ effects (CriminalHistory.submit (CriminalHistory.values st')) = [].
Proof.
  intros Hr n st'.
  assert (CriminalHistory.values st'
          = CriminalHistory.mkFormData
              (CriminalHistory.hasCriminalOffense (CriminalHistory.values st))
              (CriminalHistory.charges (CriminalHistory.values st)
               ++ [CriminalHistory.initialCharge])
              (CriminalHistory.isWillingToBackgroundCheck (CriminalHistory.values st)))
    as Hv.
  { subst st'. unfold CriminalHistory.step. simpl. now rewrite Hr. }
  assert (CriminalHistory.validate (CriminalHistory.values st')
          = CriminalHistory.validate (CriminalHistory.values st)
            ++ CriminalHistory.charge_rules n CriminalHistory.initialCharge) as Hval.
  { rewrite Hv. unfold CriminalHistory.validate, CriminalHistory.offense_details_rendered
      in *. simpl in *. rewrite Hr. apply concat_imap_snoc. }
  split; [now rewrite Hv|]. split; [exact Hval|].
  unfold CriminalHistory.submit. rewrite handleSubmit_invalid; [reflexivity|].
  rewrite Hval. intros H. apply app_eq_nil in H as [_ H]. discriminate H.
Qed.

Lemma new_charge_blocks_submit_witness :
  let st' := CriminalHistory.step CriminalHistory.ClickAddOffense sample_criminal_state in
  CriminalHistory.charges (CriminalHistory.values st')
  = [sample_charge; CriminalHistory.initialCharge]
  /\ CriminalHistory.validate (CriminalHistory.values st')
     = [mkIssue [Key "charges"; Idx 1; Key "personName"] "required"
          (Some "Person Name is required.");
        mkIssue [Key "charges"; Idx 1; Key "charge"] "required"
          (Some "Charge is required.");
        mkIssue [Key "charges"; Idx 1; Key "outcome"] "required"
          (Some "Outcome is required.")]
  /\ effects (CriminalHistory.submit (CriminalHistory.values st')) = [].
Proof.
  exact (new_charge_blocks_submit sample_criminal_state eq_refl).
Defined.

(** ** Physical and mental health *)

Lemma illness_issues_complete (i : nat) (e : Health.ChronicIllness) :
  Health.illness_issues i e = [] <-> Health.illness_complete e = true.
Proof.
  unfold Health.illness_issues, Health.illness_complete, Health.min1.
  destruct (Health.type e), (Health.symptoms e), (Health.doctor e),
    (Health.medication e); simpl; split; intros H;
    first [reflexivity | discriminate H].
Qed.

Lemma health_valid_iff (d : Health.FormValues) :
  Health.validate d = [] <-> Health.complete d = true.
Proof.
  split; [|apply health_complete_valid].
  intros Hv. apply forallb_of_lookup. intros i e Hi.
  apply (illness_issues_complete i).
  exact (concat_imap_nil_inv _ _ Hv i e Hi).
Qed.

(** X22.  The health form reaches its [onSubmit] exactly when every entry of
    the illness list has a type, symptoms, a doctor and a medication; with an
    empty list it always does.  Otherwise the submit shows nothing but the
    errors. *)
Theorem health_submit_iff (d : Health.FormValues) :
  (effects (Health.submit d) = [Toast "You submitted the following values:" d]
   <-> Health.complete d = true)
  /\ (Health.chronicIllnesses d = [] ->
      effects (Health.submit d) = [Toast "You submitted the following values:" d])
  /\ (Health.complete d = false ->
      effects (Health.submit d) = []
      /\ errors (Health.submit d) = Health.validate d
      /\ Health.validate d <> []).
Proof.
  pose proof (health_valid_iff d) as Hiff.
  assert (Health.complete d = true ->
          effects (Health.submit d) = [Toast "You submitted the following values:" d])
    as Hok.
  { intros Hc. unfold Health.submit.
    now rewrite handleSubmit_valid by now apply Hiff. }
  split; [|split].
  - split; [|exact Hok].
    intros He. apply Hiff. unfold Health.submit, handleSubmit in He.
    destruct (Health.validate d); [reflexivity|discriminate He].
  - intros Hnil. apply Hok. unfold Health.complete. now rewrite Hnil.
  - intros Hc.
    assert (Health.validate d <> []) as Hne.
    { intros Hv. apply Hiff in Hv. congruence. }
    unfold Health.submit. rewrite handleSubmit_invalid by exact Hne.
    rewrite health_one_issue_per_path. now repeat split.
Qed.

Lemma health_submit_iff_witness :
  effects (Health.submit Health.defaultValues)
  = [Toast "You submitted the following values:" Health.defaultValues]
  /\ (effects (Health.submit (Health.values sample_health_state)) = []
      /\ errors (Health.submit (Health.values sample_health_state))
         = Health.validate (Health.values sample_health_state)
      /\ Health.validate (Health.values sample_health_state) <> []).
Proof.
  destruct (health_submit_iff Health.defaultValues) as (_ & Hnil & _).
  destruct (health_submit_iff (Health.values sample_health_state)) as (_ & _ & Hbad).
  exact (conj (Hnil eq_refl) (Hbad eq_refl)).
Defined.

Lemma health_write_list (w : Health.Write) (d : Health.FormValues) :
  Health.chronicIllnesses (Health.write w d) = Health.chronicIllnesses d.
Proof. destruct d, w; reflexivity. Qed.

Lemma health_validate_by_list (d d' : Health.FormValues) :
  Health.chronicIllnesses d' = Health.chronicIllnesses d ->
  Health.validate d' = Health.validate d.
Proof. unfold Health.validate. now intros ->. Qed.

(** X23.  On the health page, validation looks at the illness list and at
    nothing else.  In every state the page can reach from its mount, changing
    an answer or a text outside the list leaves the list, and so what
    validation reports, as it was; the chronic-illness answer included, so
    entries hidden by answering No are still validated.  The one exception is
    the affirmative chronic-illness answer over an empty list: the effect then
    appends a default entry, and a form that was valid no longer is. *)
Theorem health_validation_ignores_answers (acts : list Health.Action)
    (w : Health.Write) :
  let st := Health.run acts Health.mount in
  ((w = Health.Set_hasChronicIllness true ->
    Health.chronicIllnesses (Health.values st) <> []) ->
   Health.chronicIllnesses (Health.values (Health.step (Health.Change w) st))
   = Health.chronicIllnesses (Health.values st)
   /\ Health.validate (Health.values (Health.step (Health.Change w) st))
      = Health.validate (Health.values st))
  /\ (Health.chronicIllnesses (Health.values st) = [] ->
      let st' := Health.step (Health.Change (Health.Set_hasChronicIllness true)) st in
      Health.chronicIllnesses (Health.values st') = [Health.newIllness]
      /\ Health.validate (Health.values st) = []
      /\ length (Health.validate (Health.values st')) = 4).
Proof.
  intros st.
  pose proof (health_run_settled acts Health.mount (fun H => ltac:(discriminate H)))
    as Hs.
  fold st in Hs. clearbody st. split.
  - intros Hw.
    assert (Health.chronicIllnesses (Health.values (Health.step (Health.Change w) st))
            = Health.chronicIllnesses (Health.values st)) as Hl.
    { unfold Health.step. destruct (Health.available _ st); [|reflexivity].
      unfold Health.useEffect, Health.handle.
      cbv beta iota zeta delta [Health.values Health.keys].
      destruct st as [d k].
      rewrite (health_write_list w d).
      destruct (Health.chronicIllnesses d) as [|e l] eqn:Hd.
      - assert (Health.hasChronicIllness (Health.write w d) = false) as Hf.
        { destruct (Health.hasChronicIllness d) eqn:Hflag.
          - now destruct (Hs Hflag).
          - destruct w as [[|]| | | | | | | | | | | | | | | | | | | | |];
              first [now destruct (Hw eq_refl)
                    | destruct d; simpl in Hflag |- *; first [reflexivity | exact Hflag]]. }
        rewrite Hf. simpl. now rewrite health_write_list.
      - rewrite bool_decide_eq_false_2 by (simpl; lia).
        rewrite andb_false_r. simpl. now rewrite health_write_list. }
    split; [exact Hl | now apply health_validate_by_list].
  - intros Hl. destruct st as [d k]. destruct d. simpl in Hl. subst.
    repeat split.
Qed.

Lemma health_validation_ignores_answers_witness :
  let st := Health.run [Health.Change (Health.Set_hasChronicIllness true)] Health.mount in
  Health.chronicIllnesses
    (Health.values (Health.step (Health.Change (Health.Set_hasChronicIllness false)) st))
  = [Health.newIllness]
  /\ Health.validate
       (Health.values (Health.step (Health.Change (Health.Set_hasChronicIllness false)) st))
     = Health.validate (Health.values st)
  /\ length (Health.validate
               (Health.values
                  (Health.step (Health.Change (Health.Set_hasChronicIllness true))
                     Health.mount))) = 4.
Proof.
  destruct (health_validation_ignores_answers
              [Health.Change (Health.Set_hasChronicIllness true)]
              (Health.Set_hasChronicIllness false)) as (Hkeep & _).
  destruct (health_validation_ignores_answers [] (Health.Set_hasChronicIllness true))
    as (_ & Hadd).
  destruct (Hkeep ltac:(discriminate)) as (Hl & Hv).
  destruct (Hadd eq_refl) as (_ & _ & H4).
  exact (conj Hl (conj Hv H4)).
Defined.

(** X24.  The entry added by answering Yes blocks the submit until it is
    filled in, also after the answer is changed back to No: from a state with
    an empty list, answering Yes and then No leaves one default entry that is
    not on screen, four messages reported on it, and a submit that shows
    nothing. *)
Theorem hidden_illness_blocks_submit (st : Health.State) :
  Health.chronicIllnesses (Health.values st) = [] ->
  let st' := Health.run [Health.Change (Health.Set_hasChronicIllness true);
                         Health.Change (Health.Set_hasChronicIllness false)] st in
  Health.illnesses_rendered (Health.values st') = false
  /\ Health.chronicIllnesses (Health.values st') = [Health.newIllness]
  /\ errors (Health.submit (Health.values st'))
     = [mkIssue [Key "chronicIllnesses"; Idx 0; Key "type"] "too_small"
          (Some "Type of illness is required");
        mkIssue [Key "chronicIllnesses"; Idx 0; Key "symptoms"] "too_small"
          (Some "Symptoms are required");
        mkIssue [Key "chronicIllnesses"; Idx 0; Key "doctor"] "too_small"
          (Some "Doctor name is required");
        mkIssue [Key "chronicIllnesses"; Idx 0; Key "medication"] "too_small"
          (Some "Medication details are required")]
  /\ effects (Health.submit (Health.values st')) = [].
Proof.
  intros Hl. destruct st as [d k]. destruct d. simpl in Hl. subst.
  repeat split.
Qed.

Lemma hidden_illness_blocks_submit_witness :
  let st' := Health.run [Health.Change (Health.Set_hasChronicIllness true);
                         Health.Change (Health.Set_hasChronicIllness false)]
               Health.mount in
  Health.illnesses_rendered (Health.values st') = false
  /\ Health.chronicIllnesses (Health.values st') = [Health.newIllness]
  /\ effects (Health.submit (Health.values st')) = [].
Proof.
  destruct (hidden_illness_blocks_submit Health.mount eq_refl) as (H1 & H2 & _ & H4).
  exact (conj H1 (conj H2 H4)).
Defined.

(** ** Keys of the field arrays *)

Lemma criminal_step_aligned (a : CriminalHistory.Action) (st : CriminalHistory.State) :
  length (ids (CriminalHistory.keys st))
  = length (CriminalHistory.charges (CriminalHistory.values st)) ->
  length (ids (CriminalHistory.keys (CriminalHistory.step a st)))
  = length (CriminalHistory.charges (CriminalHistory.values (CriminalHistory.step a st))).
Proof.
  intros H. unfold CriminalHistory.step.
  destruct (CriminalHistory.available a st) eqn:Hav; [|exact H].
  destruct a as [v|v| |i|i f]; simpl in *; try exact H.
  - unfold append. rewrite !length_app, H. reflexivity.
  - apply andb_true_iff in Hav as [_ Hi]. apply bool_decide_eq_true in Hi.
    unfold remove. rewrite !length_delete; [now rewrite H| |];
      apply lookup_lt_is_Some_2; lia.
  - now rewrite length_alter.
Qed.

Lemma children_step_aligned (a : Children.Action) (st : Children.State) :
  length (ids (Children.keys st)) = length (Children.children (Children.values st)) ->
  length (ids (Children.keys (Children.step a st)))
  = length (Children.children (Children.values (Children.step a st))).
Proof.
  intros H. unfold Children.step.
  destruct (Children.available a st); [|exact H].
  destruct a as [|i f|]; simpl.
  - unfold append. rewrite !length_app, H. reflexivity.
  - now rewrite length_alter.
  - reflexivity.
Qed.

Lemma health_useEffect_aligned (st : Health.State) :
  length (ids (Health.keys st)) = length (Health.chronicIllnesses (Health.values st)) ->
  length (ids (Health.keys (Health.useEffect st)))
  = length (Health.chronicIllnesses (Health.values (Health.useEffect st))).
Proof.
  intros H. unfold Health.useEffect.
  destruct (Health.hasChronicIllness (Health.values st)
            && bool_decide (length (Health.chronicIllnesses (Health.values st)) = 0));
    [|exact H].
  simpl. rewrite (proj1 (health_set_chronicIllnesses_get _ _)).
  unfold append. rewrite !length_app, H. reflexivity.
Qed.

Lemma health_step_aligned (a : Health.Action) (st : Health.State) :
  length (ids (Health.keys st)) = length (Health.chronicIllnesses (Health.values st)) ->
  length (ids (Health.keys (Health.step a st)))
  = length (Health.chronicIllnesses (Health.values (Health.step a st))).
Proof.
  intros H. unfold Health.step.
  destruct (Health.available a st) eqn:Hav; [|exact H].
  apply health_useEffect_aligned.
  destruct a as [w| |i|i f|]; simpl in *.
  - destruct (Health.values st), w; exact H.
  - rewrite (proj1 (health_set_chronicIllnesses_get _ _)).
    unfold append. rewrite !length_app, H. reflexivity.
  - rewrite (proj1 (health_set_chronicIllnesses_get _ _)).
    unfold Health.remove_rendered in Hav.
    apply andb_true_iff in Hav as [Hav _]. apply andb_true_iff in Hav as [_ Hi].
    apply bool_decide_eq_true in Hi.
    unfold remove. rewrite !length_delete; [now rewrite H| |];
      apply lookup_lt_is_Some_2; lia.
  - rewrite (proj1 (health_set_chronicIllnesses_get _ _)). now rewrite length_alter.
  - reflexivity.
Qed.

(** X25.  On the three pages with a list, in every state reachable from the
    mount there is one key per entry, so the [fields] that are mapped to
    blocks on screen list every entry of the form values, in order. *)
Theorem every_entry_is_rendered (data : CriminalHistory.IntakeApplicationData)
    (ca : list CriminalHistory.Action) (ka : list Children.Action)
    (ha : list Health.Action) :
  let c := CriminalHistory.run ca (CriminalHistory.mount data) in
  let k := Children.run ka Children.mount in
  let h := Health.run ha Health.mount in
  (fields (CriminalHistory.keys c) (CriminalHistory.charges (CriminalHistory.values c))).*2
  = CriminalHistory.charges (CriminalHistory.values c)
  /\ (fields (Children.keys k) (Children.children (Children.values k))).*2
     = Children.children (Children.values k)
  /\ (fields (Health.keys h) (Health.chronicIllnesses (Health.values h))).*2
     = Health.chronicIllnesses (Health.values h).
Proof.
  intros c k h. unfold fields. split; [|split]; apply snd_zip.
  - enough (length (ids (CriminalHistory.keys c))
            = length (CriminalHistory.charges (CriminalHistory.values c))) by lia.
    apply (run_actions_preserves CriminalHistory.step
             (fun s => length (ids (CriminalHistory.keys s))
                       = length (CriminalHistory.charges (CriminalHistory.values s)))).
    + intros a s. apply criminal_step_aligned.
    + simpl. apply length_seq.
  - enough (length (ids (Children.keys k))
            = length (Children.children (Children.values k))) by lia.
    apply (run_actions_preserves Children.step
             (fun s => length (ids (Children.keys s))
                       = length (Children.children (Children.values s)))).
    + intros a s. apply children_step_aligned.
    + reflexivity.
  - enough (length (ids (Health.keys h))
            = length (Health.chronicIllnesses (Health.values h))) by lia.
    apply (run_actions_preserves Health.step
             (fun s => length (ids (Health.keys s))
                       = length (Health.chronicIllnesses (Health.values s)))).
    + intros a s. apply health_step_aligned.
    + reflexivity.
Qed.

(** ** White space as an answer *)

(** X26.  The steps disagree on white space.  The required rules of the
    criminal-history inputs only reject the empty string, so a charge whose
    name, charge and outcome are white space is complete and is submitted;
    the refinements of the substance-use and financial forms trim first, so
    the same string as a substance or as a checked amount is a missing
    value. *)
Theorem white_space_answers (s : js_string) :
  s <> [] -> forallb is_white_space s = true ->
  let c := CriminalHistory.mkFormData Yes
             [CriminalHistory.mkCharge s s [] s No [] [] [] []] No in
  let u := SubstanceUse.mkFormData Yes (Some s) (Some (lit "May")) (Some (lit "2023"))
             No None No None No in
  let f := sample_wages (Some s) in
  effects (CriminalHistory.submit c) = [UpdateData c; NextStep]
  /\ (errors (SubstanceUse.submit u)
      = [mkIssue [Key "substances"] "custom" (Some "Please list the substance(s).")]
      /\ effects (SubstanceUse.submit u) = [])
  /\ (errors (Financial.submit f)
      = [mkIssue [Key "wages_amount"] "custom" (Some "Amount for wages is required.")]
      /\ effects (Financial.submit f) = []).
Proof.
  intros Hne Hws c u f.
  assert (is_blank (Some s) = true) as Hb by now rewrite is_blank_Some.
  split; [|split].
  - subst c. destruct s as [|x s]; [congruence|]. reflexivity.
  - subst u. unfold SubstanceUse.submit, handleSubmit, SubstanceUse.validate,
      SubstanceUse.when_blank. simpl.
    change (match s with [] => true | _ :: _ => match trim s with [] => true | _ => false end end)
      with (is_blank (Some s)).
    rewrite Hb. now split.
  - subst f. unfold Financial.submit, handleSubmit, Financial.validate,
      Financial.superRefine, Financial.source_issues. simpl.
    change (match s with [] => true | _ :: _ => match trim s with [] => true | _ => false end end)
      with (is_blank (Some s)).
    rewrite Hb. now split.
Qed.

Lemma white_space_answers_witness :
  let s := lit "  " in
  let c := CriminalHistory.mkFormData Yes
             [CriminalHistory.mkCharge s s [] s No [] [] [] []] No in
  effects (CriminalHistory.submit c) = [UpdateData c; NextStep].
Proof.
  destruct (white_space_answers (lit "  ") ltac:(discriminate) eq_refl) as (H & _).
  exact H.
Defined.

(** ** The amount inputs on screen *)

(** X27.  The names of the income sources are pairwise distinct, so the
    component's [isChecked(name)] finds, for each source, the value of that
    source's own checkbox, and the amount input of a source is on screen
    exactly when that value is true; for a name that is not an income source
    there is no value. *)
Theorem isChecked_reads_own_checkbox (s : Financial.source) (n : string)
    (d : Financial.FormValues) :
  NoDup (map Financial.name Financial.incomeSources)
  /\ Financial.isSourceChecked (Financial.name s) d = Financial.checked_of s d
  /\ Financial.amount_visible s d
     = default false (Financial.isSourceChecked (Financial.name s) d)
  /\ ((forall s', Financial.name s' <> n) -> Financial.isSourceChecked n d = None).
Proof.
  assert (Financial.isSourceChecked (Financial.name s) d = Financial.checked_of s d)
    as Hown.
  { destruct d as [t c1 a1 c2 a2 c3 a3 c4 a4 c5 a5 c6 a6 c7 a7 c8 a8].
    destruct s; unfold Financial.isSourceChecked; simpl;
      [destruct c1|destruct c2|destruct c3|destruct c4
      |destruct c5|destruct c6|destruct c7|destruct c8]; reflexivity. }
  split; [|split; [exact Hown|split]].
  - refine (bool_decide_unpack _ _). vm_compute. exact I.
  - now rewrite Hown.
  - intros Hn.
    assert (list_find (fun s' => Financial.name s' = n) Financial.incomeSources = None)
      as Hfind.
    { apply list_find_None. apply Forall_forall. intros s' _. apply Hn. }
    unfold Financial.isSourceChecked, Financial.findIndex, Financial.getValues_checked.
    now rewrite Hfind.
Qed.

Lemma isChecked_reads_own_checkbox_witness :
  Financial.isSourceChecked "salary" sample_financial = None.
Proof.
  destruct (isChecked_reads_own_checkbox Financial.wages "salary" sample_financial)
    as (_ & _ & _ & H).
  apply H. intros s'. destruct s'; discriminate.
Defined.
